(** * ProtonVPNUserSetting: the user-settings facade of protonvpn-nm-lib

    A shallow embedding of [protonvpn_nm_lib/lib/user_settings.py].

    The class [ProtonVPNUserSetting] holds three collaborators
    ([user_conf_manager], [user_manager], [ks_manager]) and offers getters and
    setters for the protocol, kill switch, DNS and NetShield settings.  Every
    method is embedded as a computation in a state-and-exception monad whose
    state holds the three collaborators' states, the heap of list objects and
    the log of the calls the facade made. *)

From stdpp Require Import gmap strings list fin_maps pretty.
From Stdlib Require Import ZArith Ascii String.

Open Scope string_scope.

(** ** Enumerations (module [enums], imported by the source)

    Each Python enumeration is a module holding an inductive type [t], so that
    members read as in the source: [ProtocolEnum.TCP]. *)

(** Modelled from the spec: the declaration of [ProtocolEnum] is not part of
    the source file.  The spec names the tunneling protocols OpenVPN-UDP,
    OpenVPN-TCP and WireGuard; a member's [value] is its lower-case name, which
    the display form upper-cases ("OpenVPN (UDP)", "WIREGUARD"). *)
Module ProtocolEnum.
Inductive t := TCP | UDP | WIREGUARD.

Definition name (p : t) : string :=
  match p with TCP => "TCP" | UDP => "UDP" | WIREGUARD => "WIREGUARD" end.

Definition value (p : t) : string :=
  match p with TCP => "tcp" | UDP => "udp" | WIREGUARD => "wireguard" end.

#[global] Instance eq_dec : EqDecision t.
Proof. solve_decision. Defined.
End ProtocolEnum.

(** Modelled from the spec: the implementation families that tag a protocol. *)
Module ProtocolImplementationEnum.
Inductive t := OPENVPN | WIREGUARD.

#[global] Instance eq_dec : EqDecision t.
Proof. solve_decision. Defined.
End ProtocolImplementationEnum.

(** Modelled from the spec: kill switch modes Off, On-permanent and On. *)
Module KillswitchStatusEnum.
Inductive t := DISABLED | HARD | SOFT.

Definition name (k : t) : string :=
  match k with DISABLED => "DISABLED" | HARD => "HARD" | SOFT => "SOFT" end.

#[global] Instance eq_dec : EqDecision t.
Proof. solve_decision. Defined.
End KillswitchStatusEnum.

(** Modelled from the spec: the DNS modes.  [ENABLED] is the spec's Automatic,
    [CUSTOM] its Custom; these are the two members the source mentions. *)
Module UserSettingStatusEnum.
Inductive t := ENABLED | CUSTOM.

Definition name (s : t) : string :=
  match s with ENABLED => "ENABLED" | CUSTOM => "CUSTOM" end.

#[global] Instance eq_dec : EqDecision t.
Proof. solve_decision. Defined.
End UserSettingStatusEnum.

(** Modelled from the spec: the NetShield levels BlockMalware,
    BlockAdsAndMalware and Disabled, under the member names of the source. *)
Module NetshieldTranslationEnum.
Inductive t := MALWARE | ADS_MALWARE | DISABLED.

Definition name (n : t) : string :=
  match n with
  | MALWARE => "MALWARE" | ADS_MALWARE => "ADS_MALWARE" | DISABLED => "DISABLED"
  end.

#[global] Instance eq_dec : EqDecision t.
Proof. solve_decision. Defined.
End NetshieldTranslationEnum.

(** Modelled from the spec: the account tier is an ordinal with Free at the
    bottom and paid tiers above it. *)
Module ServerTierEnum.
Inductive t := FREE | BASIC | PLUS_VISIONARY | PM.

Definition name (x : t) : string :=
  match x with
  | FREE => "FREE" | BASIC => "BASIC"
  | PLUS_VISIONARY => "PLUS_VISIONARY" | PM => "PM"
  end.

#[global] Instance eq_dec : EqDecision t.
Proof. solve_decision. Defined.
End ServerTierEnum.

(** The keys of the settings dictionary; the source uses these five. *)
Module DisplayUserSettingsEnum.
Inductive t := PROTOCOL | KILLSWITCH | DNS | CUSTOM_DNS | NETSHIELD.

#[global] Instance eq_dec : EqDecision t.
Proof. solve_decision. Defined.

Definition to_nat (k : t) : nat :=
  match k with
  | PROTOCOL => 0 | KILLSWITCH => 1 | DNS => 2 | CUSTOM_DNS => 3 | NETSHIELD => 4
  end.

Definition of_nat (n : nat) : t :=
  match n with
  | 0 => PROTOCOL | 1 => KILLSWITCH | 2 => DNS | 3 => CUSTOM_DNS | _ => NETSHIELD
  end.

#[global] Instance countable : Countable t.
Proof. refine (inj_countable' to_nat of_nat _); by intros []. Defined.
End DisplayUserSettingsEnum.

(** The keys of the nested dictionary [get_user_configurations] returns; the
    source reads [user_configs[DNS][DNS_STATUS]] and [user_configs[DNS][CUSTOM_DNS]]. *)
Module UserSettingConnectionEnum.
Inductive t := DNS | DNS_STATUS | CUSTOM_DNS.

#[global] Instance eq_dec : EqDecision t.
Proof. solve_decision. Defined.
End UserSettingConnectionEnum.

(** ** Python objects *)

(** The immutable objects a caller can hand to a setter: [None], booleans,
    integers, strings and enumeration members. *)
Inductive value :=
| VNone
| VBool (b : bool)
| VInt (z : Z)
| VStr (s : string)
| VProtocol (p : ProtocolEnum.t)
| VKillswitch (k : KillswitchStatusEnum.t)
| VStatus (s : UserSettingStatusEnum.t)
| VNetshield (n : NetshieldTranslationEnum.t)
| VTier (x : ServerTierEnum.t).

#[global] Instance value_eq_dec : EqDecision value.
Proof. solve_decision. Defined.

(** What a dictionary of settings holds: an immutable object or a list of
    strings (the custom DNS servers). *)
Inductive object :=
| OVal (v : value)
| OList (l : list string).

#[global] Instance object_eq_dec : EqDecision object.
Proof. solve_decision. Defined.

(** Truth value of an object, as [not x] and [if x:] test it.  The
    enumerations are plain [Enum] classes (nothing is mixed in), and every
    member of such a class is true. *)
Definition truthy (v : value) : bool :=
  match v with
  | VNone => false
  | VBool b => b
  | VInt z => negb (z =? 0)%Z
  | VStr s => negb (String.eqb s "")
  | VProtocol _ | VKillswitch _ | VStatus _ | VNetshield _ | VTier _ => true
  end.

(** [if custom_dns_ips:] on a list. *)
Definition list_truthy {A} (l : list A) : bool :=
  match l with [] => false | _ :: _ => true end.

(** [isinstance(x, ProtocolEnum)] *)
Definition isinstance_ProtocolEnum (v : value) : bool :=
  match v with VProtocol _ => true | _ => false end.

(** [isinstance(x, UserSettingStatusEnum)] *)
Definition isinstance_UserSettingStatusEnum (v : value) : bool :=
  match v with VStatus _ => true | _ => false end.

(** [x == ServerTierEnum.FREE]: a member of a plain [Enum] equals itself only. *)
Definition eq_ServerTierEnum_FREE (v : value) : bool :=
  match v with VTier ServerTierEnum.FREE => true | _ => false end.

(** ** Strings *)

Definition nl : string := String (ascii_of_nat 10) EmptyString.
Definition dquote : string := String (ascii_of_nat 34) EmptyString.

(** [c.upper()] on one ASCII character. *)
Definition upper_ascii (c : ascii) : ascii :=
  let n := nat_of_ascii c in
  if (97 <=? n)%nat && (n <=? 122)%nat then ascii_of_nat (n - 32) else c.

(** [s.upper()] (the enumerations' values are ASCII). *)
Fixpoint upper (s : string) : string :=
  match s with
  | EmptyString => EmptyString
  | String c s' => String (upper_ascii c) (upper s')
  end.

(** [sep.join(l)] *)
Definition join (sep : string) (l : list string) : string :=
  String.concat sep l.

(** [str(x)], which [format] substitutes for each replacement field. *)
Definition py_str (v : value) : string :=
  match v with
  | VNone => "None"
  | VBool true => "True"
  | VBool false => "False"
  | VInt z => pretty z
  | VStr s => s
  | VProtocol p => "ProtocolEnum." ++ ProtocolEnum.name p
  | VKillswitch k => "KillswitchStatusEnum." ++ KillswitchStatusEnum.name k
  | VStatus s => "UserSettingStatusEnum." ++ UserSettingStatusEnum.name s
  | VNetshield n => "NetshieldTranslationEnum." ++ NetshieldTranslationEnum.name n
  | VTier x => "ServerTierEnum." ++ ServerTierEnum.name x
  end.

(** ** Exceptions *)

(** The exceptions in play.  [Exception] is the built-in class the facade
    raises, either with a message or wrapping the exception it caught
    ([raise Exception(e)]).  [KeyboardInterrupt] stands for the exceptions
    that are not subclasses of [Exception]. *)
Inductive exn :=
| Exception (msg : string)
| ExceptionFrom (e : exn)
| DisableConnectivityCheckError (msg : string)
| ProtonVPNException (msg : string)
| KeyError
| TypeError
| AttributeError
| KeyboardInterrupt.

(** [isinstance(e, Exception)]: what [except (ProtonVPNException, Exception)] catches. *)
Definition is_Exception (e : exn) : bool :=
  match e with KeyboardInterrupt => false | _ => true end.

(** [isinstance(e, DisableConnectivityCheckError)] *)
Definition is_DisableConnectivityCheckError (e : exn) : bool :=
  match e with DisableConnectivityCheckError _ => true | _ => false end.

Inductive outcome (A : Type) :=
| Return (a : A)
| Raise (e : exn).
Arguments Return {A} a.
Arguments Raise {A} e.

Definition raises {A} (o : outcome A) : bool :=
  match o with Return _ => false | Raise _ => true end.

#[global] Instance outcome_ret : MRet outcome := fun _ a => Return a.
#[global] Instance outcome_bind : MBind outcome := fun _ _ f o =>
  match o with
  | Return a => f a
  | Raise e => Raise e
  end.

(** ** Dictionaries with literal keys

    The small literal dictionaries of the source ([KILLSWITCH_STATUS_TEXT],
    [SUPPORTED_PROTOCOLS], [dns_status], [netshield_status]) are association
    lists with distinct keys, written in the order of the source. *)

Fixpoint assoc {K V} `{EqDecision K} (d : list (K * V)) (k : K) : option V :=
  match d with
  | [] => None
  | (k', v) :: d' => if decide (k' = k) then Some v else assoc d' k
  end.

(** [d[k]] for a key that is hashable. *)
Definition getitem {K V} `{EqDecision K} (d : list (K * V)) (k : K) : outcome V :=
  match assoc d k with
  | Some v => Return v
  | None => Raise KeyError
  end.

(** [d[o]] for an arbitrary object: a list is unhashable. *)
Definition getitem_object {V} (d : list (value * V)) (o : object) : outcome V :=
  match o with
  | OList _ => Raise TypeError
  | OVal v => getitem d v
  end.

(** [d[k]] on the settings dictionary. *)
Definition getitem_settings
    (d : gmap DisplayUserSettingsEnum.t object) (k : DisplayUserSettingsEnum.t)
  : outcome object :=
  match d !! k with
  | Some o => Return o
  | None => Raise KeyError
  end.

(** Modelled from the spec: the constant [SUPPORTED_PROTOCOLS] of the module
    [constants] is not part of the source file; the OpenVPN family holds the
    TCP and UDP transports and WireGuard is a family of its own. *)
Definition SUPPORTED_PROTOCOLS
  : list (ProtocolImplementationEnum.t * list ProtocolEnum.t) :=
  [ (ProtocolImplementationEnum.OPENVPN, [ProtocolEnum.TCP; ProtocolEnum.UDP]);
    (ProtocolImplementationEnum.WIREGUARD, [ProtocolEnum.WIREGUARD]) ].

(** [o in l] for a list of protocols: equality with some element. *)
Definition contains_protocol (l : list ProtocolEnum.t) (o : object) : bool :=
  match o with
  | OVal (VProtocol p) => bool_decide (p ∈ l)
  | _ => false
  end.

(** [o.value.upper()].  Every member of an enumeration has a [value]; that of
    a protocol is its string, and [member_value] gives that of a member of
    the other enumerations, whose declarations are outside the source file.
    Only a string has [upper]; the other objects have no [value]. *)
Definition value_upper (member_value : value → value) (o : object)
  : outcome string :=
  match o with
  | OVal (VProtocol p) => Return (upper (ProtocolEnum.value p))
  | OVal ((VKillswitch _ | VStatus _ | VNetshield _ | VTier _) as member) =>
      match member_value member with
      | VStr text => Return (upper text)
      | _ => Raise AttributeError
      end
  | _ => Raise AttributeError
  end.

(** The characters of a string, which [join] iterates when handed a string. *)
Fixpoint chars (s : string) : list string :=
  match s with
  | EmptyString => []
  | String c s' => String c EmptyString :: chars s'
  end.

(** [sep.join(o)] for an arbitrary object. *)
Definition join_object (sep : string) (o : object) : outcome string :=
  match o with
  | OList l => Return (join sep l)
  | OVal (VStr s) => Return (join sep (chars s))
  | OVal _ => Raise TypeError
  end.

(** ** The transformation to readable format *)

Import DisplayUserSettingsEnum.

Section Transform.

(** The constant [KILLSWITCH_STATUS_TEXT] of the module [constants]: its
    entries are not part of the source file. *)
Variable KILLSWITCH_STATUS_TEXT : list (value * string).

(** The [value] of the members of the enumerations other than
    [ProtocolEnum]. *)
Variable member_value : value → value.

(** [__transform_user_setting_to_readable_format] *)
Definition transform_user_setting_to_readable_format
    (raw_format : gmap DisplayUserSettingsEnum.t object)
  : outcome (gmap DisplayUserSettingsEnum.t object) :=
  raw_protocol ← getitem_settings raw_format PROTOCOL;
  raw_ks ← getitem_settings raw_format KILLSWITCH;
  raw_dns ← getitem_settings raw_format DNS;
  raw_custom_dns ← getitem_settings raw_format CUSTOM_DNS;
  raw_ns ← getitem_settings raw_format NETSHIELD;
  (* protocol *)
  openvpn ← getitem SUPPORTED_PROTOCOLS ProtocolImplementationEnum.OPENVPN;
  transformed_protocol ←
    (if contains_protocol openvpn raw_protocol
     then u ← value_upper member_value raw_protocol; mret ("OpenVPN (" ++ u ++ ")")
     else value_upper member_value raw_protocol);
  (* killswitch *)
  transformed_ks ← getitem_object KILLSWITCH_STATUS_TEXT raw_ks;
  (* dns *)
  joined ← join_object ", " raw_custom_dns;
  let dns_status :=
    [ (VStatus UserSettingStatusEnum.ENABLED, "Automatic");
      (VStatus UserSettingStatusEnum.CUSTOM, "Custom: " ++ joined) ] in
  transformed_dns ← getitem_object dns_status raw_dns;
  (* netshield *)
  let netshield_status :=
    [ (VNetshield NetshieldTranslationEnum.MALWARE, "Malware");
      (VNetshield NetshieldTranslationEnum.ADS_MALWARE, "Ads and malware");
      (VNetshield NetshieldTranslationEnum.DISABLED, "Disabled") ] in
  transformed_ns ← getitem_object netshield_status raw_ns;
  mret (<[NETSHIELD := OVal (VStr transformed_ns)]>
        (<[DNS := OVal (VStr transformed_dns)]>
         (<[KILLSWITCH := OVal (VStr transformed_ks)]>
          (<[PROTOCOL := OVal (VStr transformed_protocol)]> ∅)))).

End Transform.

(** ** List objects and the calls the facade makes *)

(** A list object lives on the heap: the caller of [_set_dns] and the
    collaborator it hands the list to see the same object. *)
Definition loc := nat.

(** The list object created once, when [def _set_dns(..., custom_dns_ips=[])]
    is executed, and used by every call that omits the argument. *)
Definition set_dns_default_ips : loc := 0.

(** What the facade asks of its collaborators and of the logger, in order. *)
Inductive event :=
| UpdateNetshield (v : value)
| UpdateKillswitch (v : value)
| UpdateDefaultProtocol (v : value)
| UpdateDns (status : value) (ips : loc) (contents : list string)
| UpdateFromUserConfigurationMenu (v : value)
| ResetDefaultConfigs
| LoggerInfo (msg : string)
| LoggerError (msg : string)
| LoggerException (e : exn).


(** ** The collaborators

    Their code is outside the source file; the facade is verified against any
    implementation of these interfaces.  [C], [U] and [K] are the private
    states of the three collaborators. *)

Module UserConfManager.
Record t (C : Type) := {
  netshield : C → value;
  killswitch : C → value;
  default_protocol : C → value;
  get_user_configurations :
    C → list (UserSettingConnectionEnum.t *
              list (UserSettingConnectionEnum.t * object));
  update_netshield : value → C → outcome unit * C;
  update_killswitch : value → C → outcome unit * C;
  update_default_protocol : value → C → outcome unit * C;
  (** [update_dns] is handed the list object itself. *)
  update_dns :
    value → loc → gmap loc (list string) → C →
    outcome unit * (gmap loc (list string) * C);
  is_valid_ip : string → bool;
  reset_default_configs : C → outcome unit * C;
}.
Arguments netshield {C}.
Arguments killswitch {C}.
Arguments default_protocol {C}.
Arguments get_user_configurations {C}.
Arguments update_netshield {C}.
Arguments update_killswitch {C}.
Arguments update_default_protocol {C}.
Arguments update_dns {C}.
Arguments is_valid_ip {C}.
Arguments reset_default_configs {C}.
End UserConfManager.

Module UserManager.
Record t (U : Type) := {
  tier : U → outcome value;
}.
Arguments tier {U}.
End UserManager.

Module KillSwitchManager.
Record t (K : Type) := {
  update_from_user_configuration_menu : value → K → outcome unit * K;
}.
Arguments update_from_user_configuration_menu {K}.
End KillSwitchManager.

(** ** The state and the monad *)

Section Facade.

Context {C U K : Type}.

Record state := State {
  conf : C;
  user : U;
  ks : K;
  heap : gmap loc (list string);
  log : list event;
}.

Definition M (A : Type) : Type := state → outcome A * state.

Definition ret {A} (a : A) : M A := fun s => (Return a, s).

Definition raise {A} (e : exn) : M A := fun s => (Raise e, s).

Definition bind {A B} (m : M A) (f : A → M B) : M B := fun s =>
  match m s with
  | (Return a, s') => f a s'
  | (Raise e, s') => (Raise e, s')
  end.

(** [try: body / except ...: handler / else: orelse].  [handler e] is [None]
    when no [except] clause matches [e], which then propagates. *)
Definition try_except_else {A B}
    (body : M A) (handler : exn → option (M B)) (orelse : A → M B) : M B :=
  fun s =>
    match body s with
    | (Return a, s') => orelse a s'
    | (Raise e, s') =>
        match handler e with
        | Some h => h s'
        | None => (Raise e, s')
        end
    end.

Definition lift {A} (o : outcome A) : M A := fun s => (o, s).

Definition emit (ev : event) : M unit := fun s =>
  (Return tt, State (conf s) (user s) (ks s) (heap s) (log s ++ [ev])).

Definition on_conf {A} (f : C → outcome A * C) : M A := fun s =>
  let '(o, c) := f (conf s) in
  (o, State c (user s) (ks s) (heap s) (log s)).

Definition on_ks {A} (f : K → outcome A * K) : M A := fun s =>
  let '(o, k) := f (ks s) in
  (o, State (conf s) (user s) k (heap s) (log s)).

Definition on_conf_heap {A}
    (f : gmap loc (list string) → C → outcome A * (gmap loc (list string) * C))
  : M A := fun s =>
  let '(o, (h, c)) := f (heap s) (conf s) in
  (o, State c (user s) (ks s) h (log s)).

Definition read_conf {A} (f : C → A) : M A := fun s => (Return (f (conf s)), s).

Definition read_user {A} (f : U → outcome A) : M A := fun s => (f (user s), s).

(** The elements of a list object. *)
Definition read_list (l : loc) : M (list string) := fun s =>
  (Return (default [] (heap s !! l)), s).

End Facade.

Arguments state : clear implicits.
Arguments M : clear implicits.

Declare Scope py_scope.
Delimit Scope py_scope with py.
Notation "x <~ m ;; k" := (bind m (fun x => k))
  (at level 100, m at next level, right associativity) : py_scope.
Notation "m ;;; k" := (bind m (fun _ => k))
  (at level 100, right associativity) : py_scope.

(** ** The class [ProtonVPNUserSetting] *)

(** The message of the exception [_set_netshield] raises. *)
Definition netshield_upgrade_message : string :=
  nl ++ "Browse the Internet free of malware, ads, " ++
  "and trackers with NetShield." ++ nl ++
  "To use NetShield, upgrade your subscription at: " ++
  "https://account.protonvpn.com/dashboard".

(** The message of the exception [_set_killswitch] raises when the
    connectivity check could not be disabled. *)
Definition killswitch_connectivity_message : string :=
  nl ++ "Unable to set kill switch setting: " ++
  "Connectivity check could not be disabled." ++ nl ++
  "Please disable connectivity check manually to be able to use " ++
  "the killswitch feature.".

Definition protocol_incorrect_message (protocol_enum : value) : string :=
  (nl ++ "Selected option " ++ dquote ++ py_str protocol_enum ++ dquote ++
   " is either incorrect ") ++ "or protocol is (yet) not supported".

Definition invalid_status_message (setting_status : value) : string :=
  "Invalid setting status " ++ dquote ++ py_str setting_status ++ dquote.

Definition invalid_ip_message (dns_server_ip : string) : string :=
  nl ++ dns_server_ip ++ " is invalid. " ++
  "Please provide a valid IP DNS server.".

Section ProtonVPNUserSetting.

Context {C U K : Type}.

(** [__init__(self, user_conf_manager, user_manager, ks_manager)] *)
Variable user_conf_manager : UserConfManager.t C.
Variable user_manager : UserManager.t U.
Variable ks_manager : KillSwitchManager.t K.

(** The constant [KILLSWITCH_STATUS_TEXT] of the module [constants]. *)
Variable KILLSWITCH_STATUS_TEXT : list (value * string).

(** The [value] of the members of the enumerations other than
    [ProtocolEnum]. *)
Variable member_value : value → value.

Local Open Scope py_scope.
Local Abbreviation M := (M C U K).

Definition _get_netshield : M value :=
  read_conf (UserConfManager.netshield user_conf_manager).

Definition _set_netshield (netshield_enum : value) : M unit :=
  cond <~ (if negb (truthy netshield_enum)
           then tier <~ read_user (UserManager.tier user_manager) ;;
                ret (eq_ServerTierEnum_FREE tier)
           else ret false) ;;
  if (cond : bool) then
    raise (Exception netshield_upgrade_message)
  else
    emit (UpdateNetshield netshield_enum) ;;;
    on_conf (UserConfManager.update_netshield user_conf_manager netshield_enum).

Definition _get_killswitch : M value :=
  read_conf (UserConfManager.killswitch user_conf_manager).

Definition _set_killswitch (killswitch_enum : value) : M unit :=
  try_except_else
    (emit (UpdateFromUserConfigurationMenu killswitch_enum) ;;;
     on_ks (KillSwitchManager.update_from_user_configuration_menu
              ks_manager killswitch_enum))
    (fun e =>
       if is_DisableConnectivityCheckError e then
         Some (emit (LoggerException e) ;;;
               raise (Exception killswitch_connectivity_message))
       else if is_Exception e then
         Some (emit (LoggerException e) ;;;
               raise (ExceptionFrom e))
       else None)
    (fun _ =>
       emit (UpdateKillswitch killswitch_enum) ;;;
       on_conf (UserConfManager.update_killswitch
                  user_conf_manager killswitch_enum)).

Definition _get_protocol : M value :=
  read_conf (UserConfManager.default_protocol user_conf_manager).

Definition _set_protocol (protocol_enum : value) : M unit :=
  emit (LoggerInfo ("Setting protocol to: " ++ py_str protocol_enum)) ;;;
  if negb (isinstance_ProtocolEnum protocol_enum) then
    emit (LoggerError "Select protocol is incorrect.") ;;;
    raise (Exception (protocol_incorrect_message protocol_enum))
  else
    emit (UpdateDefaultProtocol protocol_enum) ;;;
    on_conf (UserConfManager.update_default_protocol
               user_conf_manager protocol_enum) ;;;
    emit (LoggerInfo ("Default protocol has been updated to " ++
                      dquote ++ py_str protocol_enum ++ dquote)).

Definition _get_dns : M object :=
  let get_dns := UserSettingConnectionEnum.DNS_STATUS in
  user_configs <~
    read_conf (UserConfManager.get_user_configurations user_conf_manager) ;;
  dns <~ lift (getitem user_configs UserSettingConnectionEnum.DNS) ;;
  dns_settings <~ lift (getitem dns get_dns) ;;
  ret dns_settings.

Definition _get_custom_dns_list : M object :=
  let get_dns := UserSettingConnectionEnum.CUSTOM_DNS in
  user_configs <~
    read_conf (UserConfManager.get_user_configurations user_conf_manager) ;;
  dns <~ lift (getitem user_configs UserSettingConnectionEnum.DNS) ;;
  dns_settings <~ lift (getitem dns get_dns) ;;
  ret dns_settings.

Definition _is_valid_ip (ip : string) : bool :=
  UserConfManager.is_valid_ip user_conf_manager ip.

(** The loop [for dns_server_ip in custom_dns_ips] of [_set_dns]. *)
Fixpoint check_dns_server_ips (custom_dns_ips : list string) : M unit :=
  match custom_dns_ips with
  | [] => ret tt
  | dns_server_ip :: rest =>
      if negb (_is_valid_ip dns_server_ip) then
        emit (LoggerError (dns_server_ip ++ " is an invalid IP")) ;;;
        raise (Exception (invalid_ip_message dns_server_ip))
      else check_dns_server_ips rest
  end.

(** [_set_dns(setting_status, custom_dns_ips=[])]: a call that omits the
    second argument ([None] here) gets the default list object. *)
Definition _set_dns (setting_status : value) (custom_dns_ips : option loc)
  : M unit :=
  let custom_dns_ips := default set_dns_default_ips custom_dns_ips in
  if negb (isinstance_UserSettingStatusEnum setting_status) then
    raise (Exception (invalid_status_message setting_status))
  else
    ips <~ read_list custom_dns_ips ;;
    (if list_truthy ips then check_dns_server_ips ips else ret tt) ;;;
    try_except_else
      (emit (UpdateDns setting_status custom_dns_ips ips) ;;;
       on_conf_heap (UserConfManager.update_dns
                       user_conf_manager setting_status custom_dns_ips))
      (fun e => if is_Exception e then Some (raise (ExceptionFrom e)) else None)
      ret.

Definition _reset_to_default_configs : M unit :=
  try_except_else
    (emit ResetDefaultConfigs ;;;
     on_conf (UserConfManager.reset_default_configs user_conf_manager))
    (fun e => if is_Exception e then Some (raise (ExceptionFrom e)) else None)
    ret.

Definition _get_user_settings (readeable_format : bool)
  : M (gmap DisplayUserSettingsEnum.t object) :=
  protocol <~ _get_protocol ;;
  killswitch <~ _get_killswitch ;;
  dns <~ _get_dns ;;
  custom_dns <~ _get_custom_dns_list ;;
  netshield <~ _get_netshield ;;
  let settings_dict : gmap DisplayUserSettingsEnum.t object :=
    <[NETSHIELD := OVal netshield]>
    (<[CUSTOM_DNS := custom_dns]>
     (<[DNS := dns]>
      (<[KILLSWITCH := OVal killswitch]>
       (<[PROTOCOL := OVal protocol]> ∅)))) in
  if negb readeable_format then
    ret settings_dict
  else
    lift (transform_user_setting_to_readable_format
            KILLSWITCH_STATUS_TEXT member_value settings_dict).

(** The call [UserTierEnum(x)]: the member for [x], or an exception when
    there is none.  The enumeration is declared outside the source file. *)
Variable UserTierEnum : value → outcome value.

Definition _get_user_tier : M value :=
  try_except_else
    (tier <~ read_user (UserManager.tier user_manager) ;;
     lift (UserTierEnum tier))
    (fun e => if is_Exception e then Some (raise (ExceptionFrom e)) else None)
    ret.

End ProtonVPNUserSetting.

(** ** Reference collaborators

    A concrete configuration store, tier provider and kill switch controller,
    used to run the facade on concrete inputs. *)

Module Reference.

(** Modelled from the spec: [Validator.isValidIPv4], true iff the candidate
    is four dot-separated decimal groups, each an integer in [0,255]. *)
Definition is_digit (c : ascii) : bool :=
  let n := nat_of_ascii c in (48 <=? n)%nat && (n <=? 57)%nat.

Fixpoint split_dots (s : string) (cur : string) : list string :=
  match s with
  | EmptyString => [cur]
  | String c s' =>
      if Ascii.eqb c "."%char then cur :: split_dots s' ""
      else split_dots s' (cur ++ String c EmptyString)
  end.

Fixpoint decimal (s : string) (acc : nat) : nat :=
  match s with
  | EmptyString => acc
  | String c s' => decimal s' (10 * acc + (nat_of_ascii c - 48))
  end.

Fixpoint all_digits (s : string) : bool :=
  match s with
  | EmptyString => true
  | String c s' => is_digit c && all_digits s'
  end.

Definition is_octet (s : string) : bool :=
  negb (String.eqb s "") && (String.length s <=? 3)%nat &&
  all_digits s && (decimal s 0 <=? 255)%nat.

Definition isValidIPv4 (candidate : string) : bool :=
  let groups := split_dots candidate "" in
  (List.length groups =? 4)%nat && forallb is_octet groups.

(** Modelled from the spec: the ConfigStore, a record of the five persisted
    settings; an update overwrites its field and a read returns it. *)
Record config := Config {
  cfg_default_protocol : value;
  cfg_killswitch : value;
  cfg_dns_status : value;
  cfg_custom_dns : list string;
  cfg_netshield : value;
}.

Definition get_user_configurations (c : config)
  : list (UserSettingConnectionEnum.t *
          list (UserSettingConnectionEnum.t * object)) :=
  [ (UserSettingConnectionEnum.DNS,
     [ (UserSettingConnectionEnum.DNS_STATUS, OVal (cfg_dns_status c));
       (UserSettingConnectionEnum.CUSTOM_DNS, OList (cfg_custom_dns c)) ]) ].

Definition update_netshield (v : value) (c : config) : outcome unit * config :=
  (Return tt,
   Config (cfg_default_protocol c) (cfg_killswitch c) (cfg_dns_status c)
          (cfg_custom_dns c) v).

Definition update_killswitch (v : value) (c : config) : outcome unit * config :=
  (Return tt,
   Config (cfg_default_protocol c) v (cfg_dns_status c)
          (cfg_custom_dns c) (cfg_netshield c)).

Definition update_default_protocol (v : value) (c : config)
  : outcome unit * config :=
  (Return tt,
   Config v (cfg_killswitch c) (cfg_dns_status c)
          (cfg_custom_dns c) (cfg_netshield c)).

(** The store persists the elements the list holds at the time of the
    call; it does not write to the list. *)
Definition update_dns (status : value) (ips : loc)
    (h : gmap loc (list string)) (c : config)
  : outcome unit * (gmap loc (list string) * config) :=
  (Return tt,
   (h, Config (cfg_default_protocol c) (cfg_killswitch c) status
              (default [] (h !! ips)) (cfg_netshield c))).

Definition default_config : config :=
  Config (VProtocol ProtocolEnum.UDP)
         (VKillswitch KillswitchStatusEnum.DISABLED)
         (VStatus UserSettingStatusEnum.ENABLED)
         []
         (VNetshield NetshieldTranslationEnum.DISABLED).

Definition reset_default_configs (c : config) : outcome unit * config :=
  (Return tt, default_config).

Definition user_conf_manager : UserConfManager.t config :=
  {| UserConfManager.netshield := cfg_netshield;
     UserConfManager.killswitch := cfg_killswitch;
     UserConfManager.default_protocol := cfg_default_protocol;
     UserConfManager.get_user_configurations := get_user_configurations;
     UserConfManager.update_netshield := update_netshield;
     UserConfManager.update_killswitch := update_killswitch;
     UserConfManager.update_default_protocol := update_default_protocol;
     UserConfManager.update_dns := update_dns;
     UserConfManager.is_valid_ip := isValidIPv4;
     UserConfManager.reset_default_configs := reset_default_configs |}.

(** Modelled from the spec: the AccountTierProvider; its state is the tier. *)
Definition user_manager : UserManager.t ServerTierEnum.t :=
  {| UserManager.tier := fun x => Return (VTier x) |}.

(** Modelled from the spec: the KillSwitchController.  Its state records
    whether the connectivity check can be disabled and the mode applied. *)
Record killswitch := KillSwitch {
  can_disable_connectivity_check : bool;
  applied : value;
}.

Definition update_from_user_configuration_menu (v : value) (k : killswitch)
  : outcome unit * killswitch :=
  if can_disable_connectivity_check k then (Return tt, KillSwitch true v)
  else (Raise (DisableConnectivityCheckError
                 "Unable to disable connectivity check"), k).

Definition ks_manager : KillSwitchManager.t killswitch :=
  {| KillSwitchManager.update_from_user_configuration_menu :=
       update_from_user_configuration_menu |}.

(** Integer values for the members of the enumerations other than
    [ProtocolEnum]. *)
Definition member_value (member : value) : value :=
  match member with
  | VKillswitch KillswitchStatusEnum.DISABLED => VInt 0
  | VKillswitch KillswitchStatusEnum.HARD => VInt 1
  | VKillswitch KillswitchStatusEnum.SOFT => VInt 2
  | VStatus UserSettingStatusEnum.ENABLED => VInt 1
  | VStatus UserSettingStatusEnum.CUSTOM => VInt 2
  | VNetshield NetshieldTranslationEnum.DISABLED => VInt 0
  | VNetshield NetshieldTranslationEnum.MALWARE => VInt 1
  | VNetshield NetshieldTranslationEnum.ADS_MALWARE => VInt 2
  | VTier ServerTierEnum.FREE => VInt 0
  | VTier ServerTierEnum.BASIC => VInt 1
  | VTier ServerTierEnum.PLUS_VISIONARY => VInt 2
  | VTier ServerTierEnum.PM => VInt 3
  | other => other
  end.

(** A table for the kill switch texts. *)
Definition KILLSWITCH_STATUS_TEXT : list (value * string) :=
  [ (VKillswitch KillswitchStatusEnum.HARD, "Always-on");
    (VKillswitch KillswitchStatusEnum.SOFT, "On");
    (VKillswitch KillswitchStatusEnum.DISABLED, "Off") ].

(** A state with the default configuration, where only the default list
    object of [_set_dns] exists. *)
Definition initial (x : ServerTierEnum.t) (can_disable : bool)
  : state config ServerTierEnum.t killswitch :=
  State default_config x
        (KillSwitch can_disable (VKillswitch KillswitchStatusEnum.DISABLED))
        {[ set_dns_default_ips := [] ]} [].

End Reference.

(** ** Vocabulary of the statements *)

(** [text] contains [needle]. *)
Definition mentions (text needle : string) : bool :=
  match String.index 0 needle text with
  | Some _ => true
  | None => false
  end.

Section Vocabulary.

Context {C U K : Type}.

(** The state after the facade logged [evs], everything else untouched. *)
Definition logged (s : state C U K) (evs : list event) : state C U K :=
  State (conf s) (user s) (ks s) (heap s) (log s ++ evs).

(** How [except (exceptions.ProtonVPNException, Exception) as e:
    raise Exception(e)] turns the outcome of the call it guards. *)
Definition wrapped (o : outcome unit) : outcome unit :=
  match o with
  | Return a => Return a
  | Raise e => if is_Exception e then Raise (ExceptionFrom e) else Raise e
  end.

(** The store returns, on a later read, the protocol an update wrote. *)
Definition reads_back_default_protocol (ucm : UserConfManager.t C) : Prop :=
  ∀ v c c',
    UserConfManager.update_default_protocol ucm v c = (Return tt, c') →
    UserConfManager.default_protocol ucm c' = v.

(** [update_dns] does not write to the list object it is handed. *)
Definition keeps_list_handed_over (ucm : UserConfManager.t C) : Prop :=
  ∀ status ips h c,
    (UserConfManager.update_dns ucm status ips h c).2.1 !! ips = h !! ips.

(** The sentence "[_set_dns] with the Custom mode and an empty list fails",
    for one store, one state and one way of passing the list. *)
Definition rejects_empty_custom_list
    (ucm : UserConfManager.t C) (s : state C U K) (arg : option loc) : Prop :=
  heap s !! default set_dns_default_ips arg = Some [] →
  raises (_set_dns ucm (VStatus UserSettingStatusEnum.CUSTOM) arg s).1 = true.

(** The sentence "[_set_netshield] with a level other than Disabled raises
    while the tier is Free", for one store, tier provider and state. *)
Definition rejects_netshield_on_free_tier
    (ucm : UserConfManager.t C) (um : UserManager.t U) (s : state C U K)
  : Prop :=
  ∀ level,
    level ≠ NetshieldTranslationEnum.DISABLED →
    UserManager.tier um (user s) = Return (VTier ServerTierEnum.FREE) →
    _set_netshield ucm um (VNetshield level) s =
      (Raise (Exception netshield_upgrade_message), s).

(** A run of calls [_set_dns(status)] that omit the list, one per element of
    [statuses], each started where the previous one stopped, whether it
    returned or raised. *)
Fixpoint set_dns_omitting_list
    (ucm : UserConfManager.t C) (statuses : list value) (s : state C U K)
  : state C U K :=
  match statuses with
  | [] => s
  | status :: rest =>
      set_dns_omitting_list ucm rest (_set_dns ucm status None s).2
  end.

(** An event is no [update_dns] call, or one that passes the default list
    object while it is empty. *)
Definition passes_empty_default (ev : event) : Prop :=
  match ev with
  | UpdateDns _ ips contents => ips = set_dns_default_ips ∧ contents = []
  | _ => True
  end.

(** The dictionary [_get_user_settings] builds from what it read. *)
Definition settings_dict_of
    (ucm : UserConfManager.t C) (c : C) (dns custom_dns : object)
  : gmap DisplayUserSettingsEnum.t object :=
  <[NETSHIELD := OVal (UserConfManager.netshield ucm c)]>
  (<[CUSTOM_DNS := custom_dns]>
   (<[DNS := dns]>
    (<[KILLSWITCH := OVal (UserConfManager.killswitch ucm c)]>
     (<[PROTOCOL := OVal (UserConfManager.default_protocol ucm c)]> ∅)))).

End Vocabulary.

(** ** Collaborators that fail *)

Module Faulty.

(** A store that reads like the reference store and whose every update
    raises [e] without writing. *)
Definition user_conf_manager (e : exn) : UserConfManager.t Reference.config :=
  {| UserConfManager.netshield := Reference.cfg_netshield;
     UserConfManager.killswitch := Reference.cfg_killswitch;
     UserConfManager.default_protocol := Reference.cfg_default_protocol;
     UserConfManager.get_user_configurations := Reference.get_user_configurations;
     UserConfManager.update_netshield := fun _ c => (Raise e, c);
     UserConfManager.update_killswitch := fun _ c => (Raise e, c);
     UserConfManager.update_default_protocol := fun _ c => (Raise e, c);
     UserConfManager.update_dns := fun _ _ h c => (Raise e, (h, c));
     UserConfManager.is_valid_ip := Reference.isValidIPv4;
     UserConfManager.reset_default_configs := fun c => (Raise e, c) |}.

(** A store whose configurations have no DNS entry. *)
Definition unconfigured : UserConfManager.t Reference.config :=
  {| UserConfManager.netshield := Reference.cfg_netshield;
     UserConfManager.killswitch := Reference.cfg_killswitch;
     UserConfManager.default_protocol := Reference.cfg_default_protocol;
     UserConfManager.get_user_configurations := fun _ => [];
     UserConfManager.update_netshield := Reference.update_netshield;
     UserConfManager.update_killswitch := Reference.update_killswitch;
     UserConfManager.update_default_protocol := Reference.update_default_protocol;
     UserConfManager.update_dns := Reference.update_dns;
     UserConfManager.is_valid_ip := Reference.isValidIPv4;
     UserConfManager.reset_default_configs := Reference.reset_default_configs |}.

(** A tier provider whose read raises [e]. *)
Definition user_manager (e : exn) : UserManager.t ServerTierEnum.t :=
  {| UserManager.tier := fun _ => Raise e |}.

(** A tier provider that answers with the raw integer of the tier. *)
Definition raw_user_manager : UserManager.t ServerTierEnum.t :=
  {| UserManager.tier := fun x =>
       Return (VInt match x with
                    | ServerTierEnum.FREE => 0
                    | ServerTierEnum.BASIC => 1
                    | ServerTierEnum.PLUS_VISIONARY => 2
                    | ServerTierEnum.PM => 3
                    end) |}.

(** A controller whose call raises [e] and applies nothing. *)
Definition ks_manager (e : exn) : KillSwitchManager.t Reference.killswitch :=
  {| KillSwitchManager.update_from_user_configuration_menu :=
       fun _ k => (Raise e, k) |}.

End Faulty.

(** ** More vocabulary *)

Section Contracts.

Context {C U K : Type}.

(** How [except (exceptions.ProtonVPNException, Exception) as e:
    raise Exception(e)] turns an outcome of any type. *)
Definition wrapped_outcome {A} (o : outcome A) : outcome A :=
  match o with
  | Return a => Return a
  | Raise e => if is_Exception e then Raise (ExceptionFrom e) else Raise e
  end.

(** The store returns, on a later read, the NetShield level an update wrote. *)
Definition reads_back_netshield (ucm : UserConfManager.t C) : Prop :=
  ∀ v c c',
    UserConfManager.update_netshield ucm v c = (Return tt, c') →
    UserConfManager.netshield ucm c' = v.

(** The store returns, on a later read, the kill switch mode an update wrote. *)
Definition reads_back_killswitch (ucm : UserConfManager.t C) : Prop :=
  ∀ v c c',
    UserConfManager.update_killswitch ucm v c = (Return tt, c') →
    UserConfManager.killswitch ucm c' = v.

(** The configurations of the store hold, after [update_dns], the mode and
    the elements the list had when it was handed over. *)
Definition reads_back_dns (ucm : UserConfManager.t C) : Prop :=
  ∀ status ips h c h' c',
    UserConfManager.update_dns ucm status ips h c = (Return tt, (h', c')) →
    ∃ dns_configs,
      getitem (UserConfManager.get_user_configurations ucm c')
        UserSettingConnectionEnum.DNS = Return dns_configs ∧
      getitem dns_configs UserSettingConnectionEnum.DNS_STATUS
        = Return (OVal status) ∧
      getitem dns_configs UserSettingConnectionEnum.CUSTOM_DNS
        = Return (OList (default [] (h !! ips))).


(** The first entry of a list the validator refuses, if any. *)
Definition first_invalid (ucm : UserConfManager.t C) (ips : list string)
  : option string :=
  snd <$> list_find (λ ip, UserConfManager.is_valid_ip ucm ip = false) ips.

End Contracts.

(** * Properties *)

(** The validator on the addresses the specification lists. *)
Example isValidIPv4_examples :
  map Reference.isValidIPv4
      ["0.0.0.0"; "255.255.255.255"; "256.0.0.1"; "1.2.3"; "1.2.3.4.5";
       "abc.def.gha.bcd"; "1.2.3.4"; "300.1.1.1"]
  = [true; true; false; false; false; false; true; false].
Proof. vm_compute. reflexivity. Qed.

(** ** The monad *)

Section MonadFacts.

Context {C U K : Type}.
Implicit Types s : state C U K.

Lemma logged_nil s : logged s [] = s.
Proof. destruct s; unfold logged; simpl. by rewrite app_nil_r. Qed.

Lemma logged_logged s evs evs' :
  logged (logged s evs) evs' = logged s (evs ++ evs').
Proof. unfold logged; simpl. by rewrite app_assoc. Qed.

Lemma emit_logged ev s : emit ev s = (Return tt, logged s [ev]).
Proof. reflexivity. Qed.

Lemma conf_logged s evs : conf (logged s evs) = conf s.
Proof. reflexivity. Qed.

Lemma heap_logged s evs : heap (logged s evs) = heap s.
Proof. reflexivity. Qed.

Lemma log_logged s evs : log (logged s evs) = (log s ++ evs)%list.
Proof. reflexivity. Qed.

End MonadFacts.

(** ** NetShield *)

Section Netshield.

Context {C U K : Type}.
Variable ucm : UserConfManager.t C.
Variable um : UserManager.t U.
Implicit Types s : state C U K.

(** A true argument is handed to the store; the tier is not even read. *)
Lemma set_netshield_truthy v s :
  truthy v = true →
  _set_netshield ucm um v s =
    let '(o, c) := UserConfManager.update_netshield ucm v (conf s) in
    (o, State c (user s) (ks s) (heap s) (log s ++ [UpdateNetshield v])).
Proof.
  intros Hv. unfold _set_netshield, bind. rewrite Hv. simpl.
  unfold on_conf. simpl. reflexivity.
Qed.

(** On a tier other than Free every argument is handed to the store. *)
Lemma set_netshield_not_free v x s :
  UserManager.tier um (user s) = Return (VTier x) →
  x ≠ ServerTierEnum.FREE →
  _set_netshield ucm um v s =
    let '(o, c) := UserConfManager.update_netshield ucm v (conf s) in
    (o, State c (user s) (ks s) (heap s) (log s ++ [UpdateNetshield v])).
Proof.
  intros Ht Hx. unfold _set_netshield, bind, read_user.
  destruct (truthy v); simpl; [reflexivity|].
  rewrite Ht. simpl. destruct x; [done|reflexivity..].
Qed.

(** The guard fires exactly on a false argument while the tier is Free:
    then nothing is logged and no collaborator state changes. *)
Lemma set_netshield_falsy_free v s :
  truthy v = false →
  UserManager.tier um (user s) = Return (VTier ServerTierEnum.FREE) →
  _set_netshield ucm um v s = (Raise (Exception netshield_upgrade_message), s).
Proof.
  intros Hv Ht. unfold _set_netshield, bind, read_user.
  rewrite Hv. simpl. rewrite Ht. reflexivity.
Qed.

End Netshield.

(** C1.  Stated property: with a level other than Disabled, [_set_netshield]
    raises on the Free tier before any [update_netshield], and delegates on
    every other tier.  The code departs from the first half: on the Free tier
    [_set_netshield(NetshieldTranslationEnum.MALWARE)] does not raise.  The
    member is true, so the guard [not netshield_enum and tier == FREE] is
    false, [update_netshield] is called and the level is stored; the sentence
    "a level other than Disabled is rejected on the Free tier" fails for the
    reference store. *)
Theorem set_netshield_free_tier_accepts_malware :
  let s := Reference.initial ServerTierEnum.FREE true in
  let r := _set_netshield Reference.user_conf_manager Reference.user_manager
             (VNetshield NetshieldTranslationEnum.MALWARE) s in
  r.1 = Return tt ∧
  log r.2 = [UpdateNetshield (VNetshield NetshieldTranslationEnum.MALWARE)] ∧
  (_get_netshield Reference.user_conf_manager r.2).1
    = Return (VNetshield NetshieldTranslationEnum.MALWARE) ∧
  ¬ rejects_netshield_on_free_tier
      Reference.user_conf_manager Reference.user_manager s.
Proof.
  cbv zeta. repeat split.
  intros H.
  specialize (H NetshieldTranslationEnum.MALWARE).
  discriminate H; [discriminate|reflexivity].
Qed.

(** C2.  [_set_netshield(NetshieldTranslationEnum.DISABLED)] never takes the
    raising branch, whatever the tier provider answers (Free included, and
    even when reading the tier would fail): it logs one call of
    [update_netshield] with [DISABLED] and its outcome and the new store are
    those of that call, so it returns whenever the store does. *)
Theorem set_netshield_disabled_any_tier
    {C U K : Type} (ucm : UserConfManager.t C) (um : UserManager.t U)
    (s : state C U K) :
  let v := VNetshield NetshieldTranslationEnum.DISABLED in
  let '(o, c) := UserConfManager.update_netshield ucm v (conf s) in
  _set_netshield ucm um v s =
    (o, State c (user s) (ks s) (heap s) (log s ++ [UpdateNetshield v])).
Proof.
  cbv zeta. rewrite (set_netshield_truthy ucm um) by reflexivity.
  by destruct (UserConfManager.update_netshield _ _ _).
Qed.

(** ** Kill switch *)


(** ** Protocol *)

(** C4.  For a protocol [p] whose update the store accepts,
    [_set_protocol(p)] returns and a following [_get_protocol()] returns [p]
    (the store reading back what was written).  For an argument [v] that is
    no member of [ProtocolEnum], whatever the store and the state are,
    [_set_protocol(v)] raises the exception that reports the incorrect
    option; it only logs two lines, so [update_default_protocol] is not
    called and the store is untouched. *)
Theorem set_protocol_get_protocol
    {C U K : Type} (ucm : UserConfManager.t C) :
  (∀ (p : ProtocolEnum.t) (s : state C U K) (c' : C),
     reads_back_default_protocol ucm →
     UserConfManager.update_default_protocol ucm (VProtocol p) (conf s)
       = (Return tt, c') →
     ∃ s', _set_protocol ucm (VProtocol p) s = (Return tt, s') ∧
           _get_protocol ucm s' = (Return (VProtocol p), s')) ∧
  (∀ (v : value) (s : state C U K),
     isinstance_ProtocolEnum v = false →
     _set_protocol ucm v s =
       (Raise (Exception (protocol_incorrect_message v)),
        logged s [LoggerInfo ("Setting protocol to: " ++ py_str v);
                  LoggerError "Select protocol is incorrect."])).
Proof.
  split.
  - intros p s c' Hlaw Hup.
    unfold _set_protocol, bind, emit, on_conf. simpl. rewrite Hup.
    eexists. split; [reflexivity|].
    unfold _get_protocol, read_conf. simpl.
    by rewrite (Hlaw _ _ _ Hup).
  - intros v s Hv.
    unfold _set_protocol, bind, emit, raise, logged. rewrite Hv. simpl.
    by rewrite <- app_assoc.
Qed.

Lemma set_protocol_get_protocol_witness :
  let ucm := Reference.user_conf_manager in
  let failing :=
    Faulty.user_conf_manager (ProtonVPNException "read-only configuration") in
  let s := Reference.initial ServerTierEnum.FREE true in
  let c' := (Reference.update_default_protocol
               (VProtocol ProtocolEnum.TCP) Reference.default_config).2 in
  reads_back_default_protocol ucm ∧
  UserConfManager.update_default_protocol ucm
    (VProtocol ProtocolEnum.TCP) (conf s) = (Return tt, c') ∧
  isinstance_ProtocolEnum (VStr "ikev2") = false ∧
  (∃ s', _set_protocol ucm (VProtocol ProtocolEnum.TCP) s = (Return tt, s') ∧
         _get_protocol ucm s' = (Return (VProtocol ProtocolEnum.TCP), s')) ∧
  _set_protocol ucm (VStr "ikev2") s =
    (Raise (Exception (protocol_incorrect_message (VStr "ikev2"))),
     logged s [LoggerInfo ("Setting protocol to: " ++ py_str (VStr "ikev2"));
               LoggerError "Select protocol is incorrect."]) ∧
  _set_protocol failing (VStr "ikev2") s =
    (Raise (Exception (protocol_incorrect_message (VStr "ikev2"))),
     logged s [LoggerInfo ("Setting protocol to: " ++ py_str (VStr "ikev2"));
               LoggerError "Select protocol is incorrect."]).
Proof.
  intros ucm failing s c'.
  assert (Hlaw : reads_back_default_protocol ucm).
  { intros v c c1 [= <-]. reflexivity. }
  split; [exact Hlaw|]. split; [reflexivity|]. split; [reflexivity|].
  split; [|split].
  - exact (proj1 (set_protocol_get_protocol ucm) ProtocolEnum.TCP s c'
             Hlaw eq_refl).
  - exact (proj2 (set_protocol_get_protocol ucm) (VStr "ikev2") s eq_refl).
  - exact (proj2 (set_protocol_get_protocol failing) (VStr "ikev2") s eq_refl).
Defined.

(** ** DNS *)

Section Dns.

Context {C U K : Type}.
Variable ucm : UserConfManager.t C.
Implicit Types s : state C U K.

(** The loop stops at the first entry the validator refuses. *)
Lemma check_dns_server_ips_invalid (ok : list string) bad rest s :
  Forall (λ ip, UserConfManager.is_valid_ip ucm ip = true) ok →
  UserConfManager.is_valid_ip ucm bad = false →
  check_dns_server_ips ucm (ok ++ bad :: rest) s =
    (Raise (Exception (invalid_ip_message bad)),
     logged s [LoggerError (bad ++ " is an invalid IP")]).
Proof.
  intros Hok Hbad. induction Hok as [|ip ok Hip _ IH]; simpl.
  - unfold _is_valid_ip. rewrite Hbad. reflexivity.
  - unfold _is_valid_ip. rewrite Hip. exact IH.
Qed.

(** The loop runs through a list of valid entries and changes nothing. *)
Lemma check_dns_server_ips_valid (ips : list string) s :
  Forall (λ ip, UserConfManager.is_valid_ip ucm ip = true) ips →
  check_dns_server_ips ucm ips s = (Return tt, s).
Proof.
  intros Hok. induction Hok as [|ip ok Hip _ IH]; simpl; [reflexivity|].
  unfold _is_valid_ip. by rewrite Hip.
Qed.

(** A list with an invalid entry: the call raises on the first one, before
    [update_dns]. *)
Lemma set_dns_invalid (status : value) (arg : option loc)
    (ok : list string) bad rest s :
  isinstance_UserSettingStatusEnum status = true →
  heap s !! default set_dns_default_ips arg = Some (ok ++ bad :: rest)%list →
  Forall (λ ip, UserConfManager.is_valid_ip ucm ip = true) ok →
  UserConfManager.is_valid_ip ucm bad = false →
  _set_dns ucm status arg s =
    (Raise (Exception (invalid_ip_message bad)),
     logged s [LoggerError (bad ++ " is an invalid IP")]).
Proof.
  intros Hst Hheap Hok Hbad.
  unfold _set_dns, bind, read_list. rewrite Hst. simpl. rewrite Hheap. simpl.
  assert (Ht : list_truthy (ok ++ bad :: rest) = true) by by destruct ok.
  rewrite Ht. by rewrite check_dns_server_ips_invalid.
Qed.

(** A list of valid entries (the empty list included): the call hands the
    mode and the list object to [update_dns]; outcome, heap and store are
    those of that call, an exception being wrapped. *)
Lemma set_dns_valid (status : value) (arg : option loc)
    (ips : list string) s :
  isinstance_UserSettingStatusEnum status = true →
  heap s !! default set_dns_default_ips arg = Some ips →
  Forall (λ ip, UserConfManager.is_valid_ip ucm ip = true) ips →
  let l := default set_dns_default_ips arg in
  let '(o, (h, c)) := UserConfManager.update_dns ucm status l (heap s) (conf s) in
  _set_dns ucm status arg s =
    (wrapped o,
     State c (user s) (ks s) h (log s ++ [UpdateDns status l ips])).
Proof.
  intros Hst Hheap Hok. cbv zeta.
  destruct (UserConfManager.update_dns _ _ _ _ _) as [o [h c]] eqn:Hup.
  unfold _set_dns, bind, read_list. rewrite Hst. simpl. rewrite Hheap. simpl.
  assert (Hchk : (if list_truthy ips
                  then check_dns_server_ips ucm ips else ret tt) s
                 = (Return tt, s)).
  { destruct ips; [reflexivity|]. simpl list_truthy. cbv iota.
    by apply check_dns_server_ips_valid. }
  rewrite Hchk.
  unfold try_except_else, bind, emit, on_conf_heap. simpl. rewrite Hup.
  destruct o as [[]|e]; simpl; [reflexivity|].
  by destruct (is_Exception e).
Qed.

(** A value that is no DNS mode is refused before anything else happens. *)
Lemma set_dns_invalid_status (status : value) (arg : option loc) s :
  isinstance_UserSettingStatusEnum status = false →
  _set_dns ucm status arg s =
    (Raise (Exception (invalid_status_message status)), s).
Proof.
  intros Hst. unfold _set_dns. by rewrite Hst.
Qed.

End Dns.

(** Either every entry of a list is valid, or the list splits at its first
    invalid entry. *)
Lemma valid_or_first_invalid (is_valid : string → bool) (ips : list string) :
  Forall (λ ip, is_valid ip = true) ips ∨
  ∃ ok bad rest,
    ips = (ok ++ bad :: rest)%list ∧
    Forall (λ ip, is_valid ip = true) ok ∧ is_valid bad = false.
Proof.
  induction ips as [|ip ips IH]; [by left|].
  destruct (is_valid ip) eqn:Hip.
  - destruct IH as [IH|(ok & bad & rest & -> & Hok & Hbad)].
    + left. by constructor.
    + right. exists (ip :: ok), bad, rest. split_and!; [done| |done].
      by constructor.
  - right. exists [], ip, ips. by split_and!.
Qed.

(** C5.  With a recognised DNS mode and a list whose first invalid entry is
    [bad] (every entry before it being valid), [_set_dns] raises the exception
    whose message starts with [bad]; it logs one error line and nothing else,
    so [update_dns] is not called and neither the store nor the heap
    changes. *)
Theorem set_dns_first_invalid_ip
    {C U K : Type} (ucm : UserConfManager.t C)
    (mode : UserSettingStatusEnum.t) (arg : option loc)
    (ok : list string) (bad : string) (rest : list string) (s : state C U K) :
  heap s !! default set_dns_default_ips arg = Some (ok ++ bad :: rest)%list →
  Forall (λ ip, UserConfManager.is_valid_ip ucm ip = true) ok →
  UserConfManager.is_valid_ip ucm bad = false →
  _set_dns ucm (VStatus mode) arg s =
    (Raise (Exception (invalid_ip_message bad)),
     logged s [LoggerError (bad ++ " is an invalid IP")]) ∧
  invalid_ip_message bad =
    nl ++ bad ++ " is invalid. Please provide a valid IP DNS server.".
Proof.
  intros Hheap Hok Hbad. split; [|reflexivity].
  by apply (set_dns_invalid ucm (VStatus mode) arg ok bad rest s).
Qed.

Lemma set_dns_first_invalid_ip_witness :
  let ucm := Reference.user_conf_manager in
  let s := State Reference.default_config ServerTierEnum.FREE
                 (Reference.KillSwitch true VNone)
                 (<[1 := ["1.2.3.4"; "300.1.1.1"]]> {[ set_dns_default_ips := [] ]})
                 [] in
  heap s !! default set_dns_default_ips (Some 1)
    = Some (["1.2.3.4"] ++ "300.1.1.1" :: [])%list ∧
  Forall (λ ip, UserConfManager.is_valid_ip ucm ip = true) ["1.2.3.4"] ∧
  UserConfManager.is_valid_ip ucm "300.1.1.1" = false ∧
  (_set_dns ucm (VStatus UserSettingStatusEnum.CUSTOM) (Some 1) s =
     (Raise (Exception (invalid_ip_message "300.1.1.1")),
      logged s [LoggerError ("300.1.1.1" ++ " is an invalid IP")]) ∧
   invalid_ip_message "300.1.1.1" =
     nl ++ "300.1.1.1" ++ " is invalid. Please provide a valid IP DNS server.").
Proof.
  cbv zeta.
  split; [reflexivity|].
  split; [repeat constructor|].
  split; [reflexivity|].
  apply (set_dns_first_invalid_ip Reference.user_conf_manager
           UserSettingStatusEnum.CUSTOM (Some 1) ["1.2.3.4"] "300.1.1.1" []);
    [reflexivity | repeat constructor | reflexivity].
Defined.

(** C6, as stated: [_set_dns] with the Custom mode and an empty list fails.
    It does not: with the reference store, [_set_dns(CUSTOM, [])] returns, and
    the store then holds the Custom mode with no server. *)
Lemma set_dns_custom_empty_list_accepted :
  let s := State Reference.default_config ServerTierEnum.FREE
                 (Reference.KillSwitch true VNone)
                 (<[1 := []]> {[ set_dns_default_ips := [] ]}) [] in
  let r := _set_dns Reference.user_conf_manager
             (VStatus UserSettingStatusEnum.CUSTOM) (Some 1) s in
  ¬ rejects_empty_custom_list Reference.user_conf_manager s (Some 1) ∧
  r.1 = Return tt ∧
  Reference.cfg_dns_status (conf r.2) = VStatus UserSettingStatusEnum.CUSTOM ∧
  Reference.cfg_custom_dns (conf r.2) = [].
Proof.
  cbv zeta. split; [|by split_and!].
  intros H. specialize (H eq_refl). discriminate H.
Qed.

(** C6, amended.  [_set_dns(CUSTOM, [])] validates nothing and refuses
    nothing itself: it calls [update_dns] with the Custom mode and the empty
    list, and fails exactly when that call raises (the exception being
    wrapped); otherwise the store decides what is persisted. *)
Theorem set_dns_custom_empty_list_delegates
    {C U K : Type} (ucm : UserConfManager.t C)
    (arg : option loc) (s : state C U K) :
  heap s !! default set_dns_default_ips arg = Some [] →
  let status := VStatus UserSettingStatusEnum.CUSTOM in
  let l := default set_dns_default_ips arg in
  let '(o, (h, c)) := UserConfManager.update_dns ucm status l (heap s) (conf s) in
  _set_dns ucm status arg s =
    (wrapped o, State c (user s) (ks s) h (log s ++ [UpdateDns status l []])).
Proof.
  intros Hheap.
  by apply (set_dns_valid ucm (VStatus UserSettingStatusEnum.CUSTOM) arg [] s).
Qed.

Lemma set_dns_custom_empty_list_delegates_witness :
  let ucm := Reference.user_conf_manager in
  let s := Reference.initial ServerTierEnum.FREE true in
  let status := VStatus UserSettingStatusEnum.CUSTOM in
  heap s !! default set_dns_default_ips None = Some [] ∧
  _set_dns ucm status None s =
    (Return tt,
     State (Reference.Config (VProtocol ProtocolEnum.UDP)
              (VKillswitch KillswitchStatusEnum.DISABLED) status []
              (VNetshield NetshieldTranslationEnum.DISABLED))
           (user s) (ks s) (heap s)
           (log s ++ [UpdateDns status set_dns_default_ips []])).
Proof.
  cbv zeta. split; [reflexivity|].
  exact (set_dns_custom_empty_list_delegates Reference.user_conf_manager None
           (Reference.initial ServerTierEnum.FREE true) eq_refl).
Defined.



(** One call that omits the list, started with the default list empty and a
    store that does not write to the list it is handed: the default list is
    still empty afterwards, and the call logged either nothing that matters or
    one [update_dns] with the empty default list. *)
Lemma set_dns_omitting_list_step
    {C U K : Type} (ucm : UserConfManager.t C) (status : value)
    (s : state C U K) :
  keeps_list_handed_over ucm →
  heap s !! set_dns_default_ips = Some [] →
  let s' := (_set_dns ucm status None s).2 in
  heap s' !! set_dns_default_ips = Some [] ∧
  ∃ evs, log s' = (log s ++ evs)%list ∧ Forall passes_empty_default evs.
Proof.
  intros Hkeep Hheap. cbv zeta.
  destruct (isinstance_UserSettingStatusEnum status) eqn:Hst.
  - pose proof (set_dns_valid ucm status None [] s Hst Hheap (List.Forall_nil _)) as H.
    cbv zeta in H. simpl default in H.
    pose proof (Hkeep status set_dns_default_ips (heap s) (conf s)) as Hk.
    destruct (UserConfManager.update_dns _ _ _ _ _) as [o [h c]].
    rewrite H. simpl in *. split; [by rewrite Hk|].
    exists [UpdateDns status set_dns_default_ips []]. split; [done|].
    by repeat constructor.
  - rewrite set_dns_invalid_status by done. simpl. split; [done|].
    exists []. by rewrite app_nil_r.
Qed.

(** C10.  [_set_dns] does not write to the list it is given: provided the
    store's [update_dns] does not either, the list holds after the call what
    it held before.  Consequently, through any run of calls that omit the
    list, the default list object stays empty and every [update_dns] of the
    run is handed that object while it is empty. *)
Theorem set_dns_keeps_default_list_empty
    {C U K : Type} (ucm : UserConfManager.t C)
    (status : value) (arg : option loc) (ips : list string)
    (statuses : list value) (s s0 : state C U K) :
  keeps_list_handed_over ucm →
  heap s !! default set_dns_default_ips arg = Some ips →
  heap s0 !! set_dns_default_ips = Some [] →
  heap (_set_dns ucm status arg s).2 !! default set_dns_default_ips arg
    = Some ips ∧
  let s' := set_dns_omitting_list ucm statuses s0 in
  heap s' !! set_dns_default_ips = Some [] ∧
  ∃ evs, log s' = (log s0 ++ evs)%list ∧ Forall passes_empty_default evs.
Proof.
  intros Hkeep Hheap Hheap0. split.
  - destruct (isinstance_UserSettingStatusEnum status) eqn:Hst.
    + destruct (valid_or_first_invalid (UserConfManager.is_valid_ip ucm) ips)
        as [Hok|(ok & bad & rest & -> & Hok & Hbad)].
      * pose proof (set_dns_valid ucm status arg ips s Hst Hheap Hok) as H.
        cbv zeta in H.
        pose proof (Hkeep status (default set_dns_default_ips arg)
                      (heap s) (conf s)) as Hk.
        destruct (UserConfManager.update_dns _ _ _ _ _) as [o [h c]].
        rewrite H. simpl in *. by rewrite Hk.
      * by rewrite (set_dns_invalid ucm status arg ok bad rest s).
    + by rewrite set_dns_invalid_status.
  - cbv zeta. clear Hheap. revert s0 Hheap0.
    induction statuses as [|st statuses IH]; intros s0 Hheap0; simpl.
    + split; [done|]. exists []. by rewrite app_nil_r.
    + destruct (set_dns_omitting_list_step ucm st s0 Hkeep Hheap0)
        as (Hh & evs & Hlog & Hevs).
      destruct (IH _ Hh) as (Hh' & evs' & Hlog' & Hevs').
      split; [done|]. exists (evs ++ evs')%list.
      rewrite Hlog', Hlog, <- app_assoc. split; [done|].
      by apply Forall_app.
Qed.

Lemma set_dns_keeps_default_list_empty_witness :
  let ucm := Reference.user_conf_manager in
  let s := State Reference.default_config ServerTierEnum.FREE
                 (Reference.KillSwitch true VNone)
                 (<[1 := ["9.9.9.9"]]> {[ set_dns_default_ips := [] ]}) [] in
  let s0 := Reference.initial ServerTierEnum.FREE true in
  let status := VStatus UserSettingStatusEnum.CUSTOM in
  let statuses := [VStatus UserSettingStatusEnum.CUSTOM; VStr "automatic";
                   VStatus UserSettingStatusEnum.ENABLED] in
  keeps_list_handed_over ucm ∧
  heap s !! default set_dns_default_ips (Some 1) = Some ["9.9.9.9"] ∧
  heap s0 !! set_dns_default_ips = Some [] ∧
  heap (_set_dns ucm status (Some 1) s).2 !! default set_dns_default_ips (Some 1)
    = Some ["9.9.9.9"] ∧
  let s' := set_dns_omitting_list ucm statuses s0 in
  heap s' !! set_dns_default_ips = Some [] ∧
  ∃ evs, log s' = (log s0 ++ evs)%list ∧ Forall passes_empty_default evs.
Proof.
  intros ucm s s0 status statuses.
  assert (Hkeep : keeps_list_handed_over ucm) by (intros ? ? ? ?; reflexivity).
  split; [exact Hkeep|].
  split; [reflexivity|].
  split; [reflexivity|].
  apply (set_dns_keeps_default_list_empty ucm status (Some 1) ["9.9.9.9"]
           statuses s s0); [exact Hkeep | reflexivity | reflexivity].
Defined.

(** The run of the witness above, spelled out: three calls that omit the
    list, the second with a value that is no DNS mode. *)
Example set_dns_omitting_list_run :
  let s' := set_dns_omitting_list Reference.user_conf_manager
              [VStatus UserSettingStatusEnum.CUSTOM; VStr "automatic";
               VStatus UserSettingStatusEnum.ENABLED]
              (Reference.initial ServerTierEnum.FREE true) in
  log s' = [UpdateDns (VStatus UserSettingStatusEnum.CUSTOM) set_dns_default_ips [];
            UpdateDns (VStatus UserSettingStatusEnum.ENABLED) set_dns_default_ips []] ∧
  heap s' = {[ set_dns_default_ips := [] ]}.
Proof. split; reflexivity. Qed.

(** ** The settings dictionary and its readable form *)

Lemma upper_examples :
  upper "udp" = "UDP" ∧ upper "tcp" = "TCP" ∧ upper "wireguard" = "WIREGUARD" ∧
  upper "Open-VPN 2" = "OPEN-VPN 2".
Proof. by split_and!. Qed.

(** C7.  On a dictionary of raw settings whose protocol, DNS mode and
    NetShield level are members of their enumerations, whose custom DNS entry
    is a list of strings and whose kill switch has a text, the transformation
    returns a dictionary where: the protocol is "OpenVPN (" + upper-cased
    value + ")" for a member of the OpenVPN family (TCP, UDP) and the
    upper-cased value otherwise; the DNS is "Automatic" for [ENABLED] and
    "Custom: " followed by the servers joined with ", " in their order for
    [CUSTOM]; the NetShield is "Malware", "Ads and malware" or "Disabled". *)
Theorem readable_format_strings
    (KILLSWITCH_STATUS_TEXT : list (value * string))
    (member_value : value → value)
    (raw_format : gmap DisplayUserSettingsEnum.t object)
    (p : ProtocolEnum.t) (raw_ks : object) (ks_text : string)
    (mode : UserSettingStatusEnum.t) (servers : list string)
    (level : NetshieldTranslationEnum.t) :
  raw_format !! PROTOCOL = Some (OVal (VProtocol p)) →
  raw_format !! KILLSWITCH = Some raw_ks →
  getitem_object KILLSWITCH_STATUS_TEXT raw_ks = Return ks_text →
  raw_format !! DNS = Some (OVal (VStatus mode)) →
  raw_format !! CUSTOM_DNS = Some (OList servers) →
  raw_format !! NETSHIELD = Some (OVal (VNetshield level)) →
  ∃ readable,
    transform_user_setting_to_readable_format
    KILLSWITCH_STATUS_TEXT member_value raw_format
      = Return readable ∧
    readable !! PROTOCOL =
      Some (OVal (VStr
        (if bool_decide (p ∈ [ProtocolEnum.TCP; ProtocolEnum.UDP])
         then "OpenVPN (" ++ upper (ProtocolEnum.value p) ++ ")"
         else upper (ProtocolEnum.value p)))) ∧
    readable !! PROTOCOL =
      Some (OVal (VStr
        match p with
        | ProtocolEnum.TCP => "OpenVPN (TCP)"
        | ProtocolEnum.UDP => "OpenVPN (UDP)"
        | ProtocolEnum.WIREGUARD => "WIREGUARD"
        end)) ∧
    readable !! KILLSWITCH = Some (OVal (VStr ks_text)) ∧
    readable !! DNS =
      Some (OVal (VStr
        match mode with
        | UserSettingStatusEnum.ENABLED => "Automatic"
        | UserSettingStatusEnum.CUSTOM => "Custom: " ++ String.concat ", " servers
        end)) ∧
    readable !! NETSHIELD =
      Some (OVal (VStr
        match level with
        | NetshieldTranslationEnum.MALWARE => "Malware"
        | NetshieldTranslationEnum.ADS_MALWARE => "Ads and malware"
        | NetshieldTranslationEnum.DISABLED => "Disabled"
        end)).
Proof.
  intros Hp Hks Htext Hdns Hcustom Hns.
  unfold transform_user_setting_to_readable_format, getitem_settings.
  rewrite Hp, Hks, Hdns, Hcustom, Hns. simpl.
  rewrite Htext. simpl.
  destruct p, mode, level; (eexists; split; [reflexivity|]);
    by simplify_map_eq.
Qed.

Lemma readable_format_strings_witness :
  let raw_format : gmap DisplayUserSettingsEnum.t object :=
    <[NETSHIELD := OVal (VNetshield NetshieldTranslationEnum.ADS_MALWARE)]>
    (<[CUSTOM_DNS := OList ["9.9.9.9"; "1.1.1.1"]]>
     (<[DNS := OVal (VStatus UserSettingStatusEnum.CUSTOM)]>
      (<[KILLSWITCH := OVal (VKillswitch KillswitchStatusEnum.DISABLED)]>
       (<[PROTOCOL := OVal (VProtocol ProtocolEnum.UDP)]> ∅)))) in
  raw_format !! PROTOCOL = Some (OVal (VProtocol ProtocolEnum.UDP)) ∧
  raw_format !! KILLSWITCH
    = Some (OVal (VKillswitch KillswitchStatusEnum.DISABLED)) ∧
  getitem_object Reference.KILLSWITCH_STATUS_TEXT
    (OVal (VKillswitch KillswitchStatusEnum.DISABLED)) = Return "Off" ∧
  raw_format !! DNS = Some (OVal (VStatus UserSettingStatusEnum.CUSTOM)) ∧
  raw_format !! CUSTOM_DNS = Some (OList ["9.9.9.9"; "1.1.1.1"]) ∧
  raw_format !! NETSHIELD
    = Some (OVal (VNetshield NetshieldTranslationEnum.ADS_MALWARE)) ∧
  ∃ readable,
    transform_user_setting_to_readable_format
      Reference.KILLSWITCH_STATUS_TEXT Reference.member_value
      raw_format = Return readable ∧
    readable !! PROTOCOL = Some (OVal (VStr "OpenVPN (UDP)")) ∧
    readable !! KILLSWITCH = Some (OVal (VStr "Off")) ∧
    readable !! DNS = Some (OVal (VStr "Custom: 9.9.9.9, 1.1.1.1")) ∧
    readable !! NETSHIELD = Some (OVal (VStr "Ads and malware")).
Proof.
  intros raw_format.
  split; [reflexivity|]. split; [reflexivity|]. split; [reflexivity|].
  split; [reflexivity|]. split; [reflexivity|]. split; [reflexivity|].
  destruct (readable_format_strings
      Reference.KILLSWITCH_STATUS_TEXT Reference.member_value raw_format
              ProtocolEnum.UDP
              (OVal (VKillswitch KillswitchStatusEnum.DISABLED)) "Off"
              UserSettingStatusEnum.CUSTOM ["9.9.9.9"; "1.1.1.1"]
              NetshieldTranslationEnum.ADS_MALWARE
              eq_refl eq_refl eq_refl eq_refl eq_refl eq_refl)
    as (readable & Hr & _ & Hp & Hk & Hd & Hn).
  exists readable. split; [exact Hr|].
  split; [exact Hp|]. split; [exact Hk|]. split; [exact Hd|]. exact Hn.
Defined.

(** The readable form of the dictionary above, as a whole. *)
Example readable_format_example :
  transform_user_setting_to_readable_format
      Reference.KILLSWITCH_STATUS_TEXT Reference.member_value
    (<[NETSHIELD := OVal (VNetshield NetshieldTranslationEnum.ADS_MALWARE)]>
     (<[CUSTOM_DNS := OList ["9.9.9.9"; "1.1.1.1"]]>
      (<[DNS := OVal (VStatus UserSettingStatusEnum.CUSTOM)]>
       (<[KILLSWITCH := OVal (VKillswitch KillswitchStatusEnum.DISABLED)]>
        (<[PROTOCOL := OVal (VProtocol ProtocolEnum.UDP)]> ∅)))))
  = Return
      (<[NETSHIELD := OVal (VStr "Ads and malware")]>
       (<[DNS := OVal (VStr "Custom: 9.9.9.9, 1.1.1.1")]>
        (<[KILLSWITCH := OVal (VStr "Off")]>
         (<[PROTOCOL := OVal (VStr "OpenVPN (UDP)")]> ∅)))).
Proof. reflexivity. Qed.

Section GetUserSettings.

Context {C U K : Type}.
Variable ucm : UserConfManager.t C.
Variable KILLSWITCH_STATUS_TEXT : list (value * string).

(** The [value] of the members of the enumerations other than
    [ProtocolEnum]. *)
Variable member_value : value → value.
Implicit Types s : state C U K.

(** Reading the settings leaves the state as it is; the outcome is that of
    the two dictionary reads followed, for the readable form, by the
    transformation. *)
Lemma get_user_settings_run (readeable_format : bool) s :
  _get_user_settings ucm KILLSWITCH_STATUS_TEXT member_value readeable_format s =
    (user_configs ←
       Return (UserConfManager.get_user_configurations ucm (conf s));
     dns ← (d ← getitem user_configs UserSettingConnectionEnum.DNS;
            getitem d UserSettingConnectionEnum.DNS_STATUS);
     custom_dns ← (d ← getitem user_configs UserSettingConnectionEnum.DNS;
                   getitem d UserSettingConnectionEnum.CUSTOM_DNS);
     let settings_dict := settings_dict_of ucm (conf s) dns custom_dns in
     if negb readeable_format then Return settings_dict
     else transform_user_setting_to_readable_format
            KILLSWITCH_STATUS_TEXT member_value settings_dict,
     s).
Proof.
  unfold _get_user_settings, _get_protocol, _get_killswitch, _get_dns,
    _get_custom_dns_list, _get_netshield, bind, read_conf, lift, ret,
    settings_dict_of.
  cbn [mbind outcome_bind conf].
  destruct (getitem (UserConfManager.get_user_configurations ucm (conf s))
              UserSettingConnectionEnum.DNS) as [d|e] eqn:Hd;
    cbn [mbind outcome_bind conf]; [|reflexivity].
  destruct (getitem d UserSettingConnectionEnum.DNS_STATUS) as [st|e];
    cbn [mbind outcome_bind conf]; rewrite ?Hd; [|reflexivity].
  destruct (getitem d UserSettingConnectionEnum.CUSTOM_DNS) as [cu|e];
    cbn [mbind outcome_bind conf]; [|reflexivity].
  by destruct readeable_format.
Qed.



End GetUserSettings.




(** The two dictionaries of the state above. *)
Example get_user_settings_example :
  let s := State (Reference.Config (VProtocol ProtocolEnum.WIREGUARD)
                    (VKillswitch KillswitchStatusEnum.HARD)
                    (VStatus UserSettingStatusEnum.CUSTOM)
                    ["9.9.9.9"; "1.1.1.1"]
                    (VNetshield NetshieldTranslationEnum.MALWARE))
                 ServerTierEnum.PLUS_VISIONARY
                 (Reference.KillSwitch true (VKillswitch KillswitchStatusEnum.HARD))
                 {[ set_dns_default_ips := [] ]} [] in
  (_get_user_settings Reference.user_conf_manager
     Reference.KILLSWITCH_STATUS_TEXT Reference.member_value false s).1
  = Return (<[NETSHIELD := OVal (VNetshield NetshieldTranslationEnum.MALWARE)]>
            (<[CUSTOM_DNS := OList ["9.9.9.9"; "1.1.1.1"]]>
             (<[DNS := OVal (VStatus UserSettingStatusEnum.CUSTOM)]>
              (<[KILLSWITCH := OVal (VKillswitch KillswitchStatusEnum.HARD)]>
               (<[PROTOCOL := OVal (VProtocol ProtocolEnum.WIREGUARD)]> ∅))))) ∧
  (_get_user_settings Reference.user_conf_manager
     Reference.KILLSWITCH_STATUS_TEXT Reference.member_value true s).1
  = Return (<[NETSHIELD := OVal (VStr "Malware")]>
            (<[DNS := OVal (VStr "Custom: 9.9.9.9, 1.1.1.1")]>
             (<[KILLSWITCH := OVal (VStr "Always-on")]>
              (<[PROTOCOL := OVal (VStr "WIREGUARD")]> ∅)))).
Proof. split; reflexivity. Qed.

(** * Further properties of the class *)

(** ** Runs of the setters *)

Section Runs.

Context {C U K : Type}.
Variable ucm : UserConfManager.t C.
Implicit Types s : state C U K.

(** The validation loop, by the first entry the validator refuses. *)
Lemma check_dns_server_ips_run (ips : list string) s :
  check_dns_server_ips ucm ips s =
    match first_invalid ucm ips with
    | Some bad =>
        (Raise (Exception (invalid_ip_message bad)),
         logged s [LoggerError (bad ++ " is an invalid IP")])
    | None => (Return tt, s)
    end.
Proof.
  unfold first_invalid. induction ips as [|ip ips IH]; [reflexivity|].
  cbn [check_dns_server_ips list_find]. unfold _is_valid_ip.
  destruct (UserConfManager.is_valid_ip ucm ip) eqn:Hip.
  - rewrite decide_False by discriminate.
    cbn [negb]. rewrite IH.
    by destruct (list_find _ ips) as [[i bad]|].
  - rewrite decide_True by done. reflexivity.
Qed.

(** No entry is refused exactly when every entry is valid. *)
Lemma first_invalid_None (ips : list string) :
  first_invalid ucm ips = None ↔
  Forall (λ ip, UserConfManager.is_valid_ip ucm ip = true) ips.
Proof.
  unfold first_invalid. rewrite fmap_None, list_find_None.
  apply Forall_proper; [|done]. intros ip.
  by destruct (UserConfManager.is_valid_ip ucm ip).
Qed.

(** The whole of [_set_dns], for every argument and state. *)
Lemma set_dns_run (status : value) (arg : option loc) s :
  _set_dns ucm status arg s =
    let l := default set_dns_default_ips arg in
    let ips := default [] (heap s !! l) in
    if isinstance_UserSettingStatusEnum status then
      match first_invalid ucm ips with
      | Some bad =>
          (Raise (Exception (invalid_ip_message bad)),
           logged s [LoggerError (bad ++ " is an invalid IP")])
      | None =>
          let '(o, (h, c)) :=
            UserConfManager.update_dns ucm status l (heap s) (conf s) in
          (wrapped o,
           State c (user s) (ks s) h (log s ++ [UpdateDns status l ips]))
      end
    else (Raise (Exception (invalid_status_message status)), s).
Proof.
  cbv zeta. unfold _set_dns, bind, read_list.
  destruct (isinstance_UserSettingStatusEnum status); [|reflexivity].
  cbn [negb].
  set (ips := default [] (heap s !! default set_dns_default_ips arg)).
  assert (Hchk : (if list_truthy ips
                  then check_dns_server_ips ucm ips else ret tt) s
                 = check_dns_server_ips ucm ips s) by by destruct ips.
  rewrite Hchk, check_dns_server_ips_run.
  destruct (first_invalid ucm ips) as [bad|]; [reflexivity|].
  unfold try_except_else, bind, emit, on_conf_heap. cbn [conf heap user ks log].
  destruct (UserConfManager.update_dns _ _ _ _ _) as [o [h c]].
  destruct o as [[]|e]; [reflexivity|].
  cbn [wrapped]. by destruct (is_Exception e).
Qed.

End Runs.

(** ** NetShield, beyond the enumeration members *)

(** X1.  An argument that is false ([None], [False], [0], the empty string)
    is refused while the tier is Free: [_set_netshield] raises the exception
    with the upgrade prompt, and neither the log nor any collaborator state
    changes. *)
Theorem set_netshield_false_argument_free_tier
    {C U K : Type} (ucm : UserConfManager.t C) (um : UserManager.t U)
    (v : value) (s : state C U K) :
  truthy v = false →
  UserManager.tier um (user s) = Return (VTier ServerTierEnum.FREE) →
  _set_netshield ucm um v s = (Raise (Exception netshield_upgrade_message), s) ∧
  mentions netshield_upgrade_message "upgrade your subscription" = true.
Proof.
  intros Hv Ht. split; [|reflexivity]. by apply set_netshield_falsy_free.
Qed.

Lemma set_netshield_false_argument_free_tier_witness :
  let s := Reference.initial ServerTierEnum.FREE true in
  truthy VNone = false ∧
  UserManager.tier Reference.user_manager (user s)
    = Return (VTier ServerTierEnum.FREE) ∧
  _set_netshield Reference.user_conf_manager Reference.user_manager VNone s
    = (Raise (Exception netshield_upgrade_message), s) ∧
  mentions netshield_upgrade_message "upgrade your subscription" = true.
Proof.
  intros s. split; [reflexivity|]. split; [reflexivity|].
  apply (set_netshield_false_argument_free_tier
           Reference.user_conf_manager Reference.user_manager VNone s);
    reflexivity.
Defined.

(** X2.  The tier is read only for a false argument ([not netshield_enum and
    ...] short-circuits).  When reading the tier raises [e], a true argument
    is still handed to [update_netshield], while a false one makes
    [_set_netshield] raise [e] itself, unwrapped, with nothing logged. *)
Theorem set_netshield_tier_failure
    {C U K : Type} (ucm : UserConfManager.t C) (um : UserManager.t U)
    (v : value) (e : exn) (s : state C U K) :
  UserManager.tier um (user s) = Raise e →
  let '(o, c) := UserConfManager.update_netshield ucm v (conf s) in
  _set_netshield ucm um v s =
    if truthy v
    then (o, State c (user s) (ks s) (heap s) (log s ++ [UpdateNetshield v]))
    else (Raise e, s).
Proof.
  intros Ht. destruct (truthy v) eqn:Hv.
  - rewrite (set_netshield_truthy ucm um v s Hv).
    by destruct (UserConfManager.update_netshield ucm v (conf s)).
  - destruct (UserConfManager.update_netshield ucm v (conf s)).
    unfold _set_netshield, bind, read_user. rewrite Hv. cbn [negb].
    by rewrite Ht.
Qed.

Lemma set_netshield_tier_failure_witness :
  let e := ProtonVPNException "no session" in
  let um := Faulty.user_manager e in
  let s := Reference.initial ServerTierEnum.FREE true in
  UserManager.tier um (user s) = Raise e ∧
  (_set_netshield Reference.user_conf_manager um
     (VNetshield NetshieldTranslationEnum.ADS_MALWARE) s).1 = Return tt ∧
  _set_netshield Reference.user_conf_manager um VNone s = (Raise e, s).
Proof.
  intros e um s. split; [reflexivity|].
  pose proof (set_netshield_tier_failure Reference.user_conf_manager um
                (VNetshield NetshieldTranslationEnum.ADS_MALWARE) e s eq_refl)
    as H1.
  pose proof (set_netshield_tier_failure Reference.user_conf_manager um
                VNone e s eq_refl) as H2.
  split; [by rewrite H1 | exact H2].
Defined.

(** X3.  When the tier provider answers with anything that is not the member
    [ServerTierEnum.FREE] (a paid tier, but also a raw integer such as [0]),
    every argument, [None] included, is handed to [update_netshield]; the
    outcome and the new store are those of that call. *)
Theorem set_netshield_other_tier_delegates
    {C U K : Type} (ucm : UserConfManager.t C) (um : UserManager.t U)
    (v t : value) (s : state C U K) :
  UserManager.tier um (user s) = Return t →
  eq_ServerTierEnum_FREE t = false →
  let '(o, c) := UserConfManager.update_netshield ucm v (conf s) in
  _set_netshield ucm um v s =
    (o, State c (user s) (ks s) (heap s) (log s ++ [UpdateNetshield v])).
Proof.
  intros Ht Hfree.
  destruct (UserConfManager.update_netshield ucm v (conf s)) as [o c] eqn:Hup.
  unfold _set_netshield, bind, read_user, emit, on_conf.
  destruct (truthy v); cbn [negb].
  - cbn. by rewrite Hup.
  - rewrite Ht. cbn. rewrite Hfree. cbn. by rewrite Hup.
Qed.

Lemma set_netshield_other_tier_delegates_witness :
  let s := Reference.initial ServerTierEnum.FREE true in
  UserManager.tier Faulty.raw_user_manager (user s) = Return (VInt 0) ∧
  eq_ServerTierEnum_FREE (VInt 0) = false ∧
  _set_netshield Reference.user_conf_manager Faulty.raw_user_manager VNone s =
    (Return tt,
     State (Reference.Config (VProtocol ProtocolEnum.UDP)
              (VKillswitch KillswitchStatusEnum.DISABLED)
              (VStatus UserSettingStatusEnum.ENABLED) [] VNone)
           (user s) (ks s) (heap s) (log s ++ [UpdateNetshield VNone])).
Proof.
  intros s. split; [reflexivity|]. split; [reflexivity|].
  exact (set_netshield_other_tier_delegates Reference.user_conf_manager
           Faulty.raw_user_manager VNone (VInt 0) s eq_refl eq_refl).
Defined.

(** ** Kill switch and protocol: failures *)

(** X4.  When the controller raises an exception [e] other than
    [DisableConnectivityCheckError], [_set_killswitch] logs it and raises
    [Exception(e)] if [e] is an [Exception]; an exception outside that class
    passes through as it is, unlogged.  In both cases the store is not
    touched. *)
Theorem set_killswitch_other_failure
    {C U K : Type} (ucm : UserConfManager.t C) (ksm : KillSwitchManager.t K)
    (mode : value) (e : exn) (k' : K) (s : state C U K) :
  KillSwitchManager.update_from_user_configuration_menu ksm mode (ks s)
    = (Raise e, k') →
  is_DisableConnectivityCheckError e = false →
  _set_killswitch ucm ksm mode s =
    if is_Exception e then
      (Raise (ExceptionFrom e),
       State (conf s) (user s) k' (heap s)
             (log s ++ [UpdateFromUserConfigurationMenu mode; LoggerException e]))
    else
      (Raise e,
       State (conf s) (user s) k' (heap s)
             (log s ++ [UpdateFromUserConfigurationMenu mode])).
Proof.
  intros Hks Hd.
  unfold _set_killswitch, try_except_else, bind, emit, on_ks.
  cbn [conf user ks heap log]. rewrite Hks, Hd.
  destruct (is_Exception e); [|reflexivity].
  unfold raise. cbn [conf user ks heap log]. by rewrite <- app_assoc.
Qed.

Lemma set_killswitch_other_failure_witness :
  let s := Reference.initial ServerTierEnum.BASIC true in
  let e := ProtonVPNException "NetworkManager is not running" in
  let mode := VKillswitch KillswitchStatusEnum.HARD in
  KillSwitchManager.update_from_user_configuration_menu
    (Faulty.ks_manager e) mode (ks s) = (Raise e, ks s) ∧
  is_DisableConnectivityCheckError e = false ∧
  _set_killswitch Reference.user_conf_manager (Faulty.ks_manager e) mode s =
    (Raise (ExceptionFrom e),
     State (conf s) (user s) (ks s) (heap s)
           (log s ++ [UpdateFromUserConfigurationMenu mode; LoggerException e])) ∧
  _set_killswitch Reference.user_conf_manager
    (Faulty.ks_manager KeyboardInterrupt) mode s =
    (Raise KeyboardInterrupt,
     State (conf s) (user s) (ks s) (heap s)
           (log s ++ [UpdateFromUserConfigurationMenu mode])).
Proof.
  intros s e mode. split; [reflexivity|]. split; [reflexivity|]. split.
  - exact (set_killswitch_other_failure Reference.user_conf_manager
             (Faulty.ks_manager e) mode e (ks s) s eq_refl eq_refl).
  - exact (set_killswitch_other_failure Reference.user_conf_manager
             (Faulty.ks_manager KeyboardInterrupt) mode KeyboardInterrupt
             (ks s) s eq_refl eq_refl).
Defined.

(** X5.  The store update of [_set_killswitch] sits in the [else] clause,
    outside the handlers: when the controller accepted the mode and
    [update_killswitch] raises [e], the call raises [e] itself (neither logged
    nor wrapped), and the controller keeps the mode it applied. *)
Theorem set_killswitch_store_failure
    {C U K : Type} (ucm : UserConfManager.t C) (ksm : KillSwitchManager.t K)
    (mode : value) (e : exn) (k' : K) (c' : C) (s : state C U K) :
  KillSwitchManager.update_from_user_configuration_menu ksm mode (ks s)
    = (Return tt, k') →
  UserConfManager.update_killswitch ucm mode (conf s) = (Raise e, c') →
  _set_killswitch ucm ksm mode s =
    (Raise e,
     State c' (user s) k' (heap s)
           (log s ++ [UpdateFromUserConfigurationMenu mode;
                      UpdateKillswitch mode])).
Proof.
  intros Hks Hup.
  unfold _set_killswitch, try_except_else, bind, emit, on_ks, on_conf.
  cbn [conf user ks heap log]. rewrite Hks. cbn [conf user ks heap log].
  rewrite Hup. by rewrite <- app_assoc.
Qed.

Lemma set_killswitch_store_failure_witness :
  let s := Reference.initial ServerTierEnum.BASIC true in
  let e := ProtonVPNException "configuration file is read-only" in
  let mode := VKillswitch KillswitchStatusEnum.HARD in
  let r := _set_killswitch (Faulty.user_conf_manager e)
             Reference.ks_manager mode s in
  KillSwitchManager.update_from_user_configuration_menu
    Reference.ks_manager mode (ks s)
    = (Return tt, Reference.KillSwitch true mode) ∧
  UserConfManager.update_killswitch (Faulty.user_conf_manager e) mode (conf s)
    = (Raise e, conf s) ∧
  r.1 = Raise e ∧
  Reference.applied (ks r.2) = mode ∧
  (_get_killswitch (Faulty.user_conf_manager e) r.2).1
    = Return (VKillswitch KillswitchStatusEnum.DISABLED).
Proof.
  intros s e mode r. split; [reflexivity|]. split; [reflexivity|].
  pose proof (set_killswitch_store_failure (Faulty.user_conf_manager e)
                Reference.ks_manager mode e (Reference.KillSwitch true mode)
                (conf s) s eq_refl eq_refl) as H.
  unfold r. rewrite H. by split_and!.
Defined.

(** X6.  [_set_protocol] with a member of [ProtocolEnum] logs the request,
    calls [update_default_protocol], and logs the success line only if that
    call returned; an exception of the store passes through as it is (this
    setter has no handler), after the request line and the call. *)
Theorem set_protocol_member_run
    {C U K : Type} (ucm : UserConfManager.t C)
    (p : ProtocolEnum.t) (s : state C U K) :
  let v := VProtocol p in
  let '(o, c) := UserConfManager.update_default_protocol ucm v (conf s) in
  _set_protocol ucm v s =
    match o with
    | Return _ =>
        (Return tt,
         State c (user s) (ks s) (heap s)
               (log s ++ [LoggerInfo ("Setting protocol to: " ++ py_str v);
                          UpdateDefaultProtocol v;
                          LoggerInfo ("Default protocol has been updated to " ++
                                      dquote ++ py_str v ++ dquote)]))
    | Raise e =>
        (Raise e,
         State c (user s) (ks s) (heap s)
               (log s ++ [LoggerInfo ("Setting protocol to: " ++ py_str v);
                          UpdateDefaultProtocol v]))
    end.
Proof.
  cbv zeta.
  destruct (UserConfManager.update_default_protocol _ _ _) as [o c] eqn:Hup.
  unfold _set_protocol, bind, emit, on_conf.
  cbn [isinstance_ProtocolEnum negb conf user ks heap log]. rewrite Hup.
  destruct o as [[]|e]; cbn [conf user ks heap log];
    by rewrite <- !app_assoc.
Qed.

(** ** DNS: order of the checks and what reaches the store *)

(** X7.  The mode is checked before the list is looked at: with a value that
    is no member of [UserSettingStatusEnum], [_set_dns] raises the exception
    about the setting status whatever the list holds (invalid entries
    included), logs nothing and changes no state. *)
Theorem set_dns_status_checked_first
    {C U K : Type} (ucm : UserConfManager.t C)
    (status : value) (arg : option loc) (s : state C U K) :
  isinstance_UserSettingStatusEnum status = false →
  _set_dns ucm status arg s =
    (Raise (Exception (invalid_status_message status)), s) ∧
  invalid_status_message status =
    "Invalid setting status " ++ dquote ++ py_str status ++ dquote.
Proof.
  intros Hst. split; [|reflexivity]. by apply set_dns_invalid_status.
Qed.

Lemma set_dns_status_checked_first_witness :
  let s := State Reference.default_config ServerTierEnum.FREE
                 (Reference.KillSwitch true VNone)
                 (<[1 := ["300.1.1.1"; "not an address"]]>
                  {[ set_dns_default_ips := [] ]}) [] in
  isinstance_UserSettingStatusEnum (VStr "custom") = false ∧
  _set_dns Reference.user_conf_manager (VStr "custom") (Some 1) s =
    (Raise (Exception (invalid_status_message (VStr "custom"))), s) ∧
  invalid_status_message (VStr "custom") =
    "Invalid setting status " ++ dquote ++ "custom" ++ dquote.
Proof.
  intros s. split; [reflexivity|].
  exact (set_dns_status_checked_first Reference.user_conf_manager
           (VStr "custom") (Some 1) s eq_refl).
Defined.

(** X8.  Nothing unchecked reaches the store: whenever a call of [_set_dns]
    logged an [update_dns], it logged nothing else, the mode is a member of
    [UserSettingStatusEnum], the list object is the one the caller passed (the
    default one when omitted), and every element it held at the call passed
    [is_valid_ip]. *)
Theorem set_dns_update_only_after_validation
    {C U K : Type} (ucm : UserConfManager.t C)
    (status : value) (arg : option loc) (s : state C U K)
    (evs : list event) (status' : value) (l : loc) (ips : list string) :
  log (_set_dns ucm status arg s).2 = (log s ++ evs)%list →
  UpdateDns status' l ips ∈ evs →
  evs = [UpdateDns status l ips] ∧
  isinstance_UserSettingStatusEnum status = true ∧
  l = default set_dns_default_ips arg ∧
  ips = default [] (heap s !! l) ∧
  Forall (λ ip, UserConfManager.is_valid_ip ucm ip = true) ips.
Proof.
  rewrite set_dns_run. cbv zeta.
  destruct (isinstance_UserSettingStatusEnum status).
  - destruct (first_invalid ucm _) as [bad|] eqn:Hfi.
    + cbn [snd log logged]. intros Hlog%app_inv_head. subst evs.
      intros Hin%list_elem_of_singleton. discriminate Hin.
    + destruct (UserConfManager.update_dns _ _ _ _ _) as [o [h c]].
      cbn [snd log]. intros Hlog%app_inv_head. subst evs.
      intros Hin%list_elem_of_singleton. injection Hin as -> -> ->.
      split_and!; try done. by apply first_invalid_None.
  - cbn [snd]. intros Hlog.
    assert (evs = []) as ->.
    { apply (app_inv_head (log s)). by rewrite app_nil_r. }
    intros Hin. by apply elem_of_nil in Hin.
Qed.

Lemma set_dns_update_only_after_validation_witness :
  let ucm := Reference.user_conf_manager in
  let status := VStatus UserSettingStatusEnum.CUSTOM in
  let s := State Reference.default_config ServerTierEnum.FREE
                 (Reference.KillSwitch true VNone)
                 (<[1 := ["9.9.9.9"; "1.1.1.1"]]>
                  {[ set_dns_default_ips := [] ]}) [] in
  let ev := UpdateDns status 1 ["9.9.9.9"; "1.1.1.1"] in
  log (_set_dns ucm status (Some 1) s).2 = (log s ++ [ev])%list ∧
  ev ∈ [ev] ∧
  Forall (λ ip, UserConfManager.is_valid_ip ucm ip = true)
         ["9.9.9.9"; "1.1.1.1"].
Proof.
  intros ucm status s ev.
  assert (Hlog : log (_set_dns ucm status (Some 1) s).2 = (log s ++ [ev])%list)
    by reflexivity.
  assert (Hin : ev ∈ [ev]) by (apply list_elem_of_here).
  split; [exact Hlog|]. split; [exact Hin|].
  exact (proj2 (proj2 (proj2 (proj2
           (set_dns_update_only_after_validation ucm status (Some 1) s [ev]
              status 1 ["9.9.9.9"; "1.1.1.1"] Hlog Hin))))).
Defined.

(** X9.  [_set_dns] returns normally exactly when the mode is a member of
    [UserSettingStatusEnum], every element of the list is valid and
    [update_dns] returned. *)
Theorem set_dns_returns_iff
    {C U K : Type} (ucm : UserConfManager.t C)
    (status : value) (arg : option loc) (s : state C U K) :
  let l := default set_dns_default_ips arg in
  (_set_dns ucm status arg s).1 = Return tt ↔
  isinstance_UserSettingStatusEnum status = true ∧
  Forall (λ ip, UserConfManager.is_valid_ip ucm ip = true)
         (default [] (heap s !! l)) ∧
  (UserConfManager.update_dns ucm status l (heap s) (conf s)).1 = Return tt.
Proof.
  cbv zeta. rewrite set_dns_run. cbv zeta.
  rewrite <- first_invalid_None.
  destruct (isinstance_UserSettingStatusEnum status).
  - destruct (first_invalid ucm _) as [bad|].
    + cbn [fst]. split; [discriminate|]. by intros (_ & ? & _).
    + destruct (UserConfManager.update_dns _ _ _ _ _) as [o [h c]].
      cbn [fst]. destruct o as [[]|e]; cbn [wrapped].
      * by split.
      * destruct (is_Exception e);
          (split; [discriminate|]); by intros (_ & _ & ?).
  - cbn [fst]. split; [discriminate|]. by intros (? & _).
Qed.

(** ** Setters followed by getters *)

(** X10.  With a store whose configurations hold what [update_dns] was given:
    after [_set_dns(mode, ips)] with valid entries (none included) that the
    store accepted, [_get_dns()] returns [mode] and [_get_custom_dns_list()]
    returns the entries of [ips], in their order. *)
Theorem set_dns_get_dns
    {C U K : Type} (ucm : UserConfManager.t C)
    (mode : UserSettingStatusEnum.t) (arg : option loc) (ips : list string)
    (h' : gmap loc (list string)) (c' : C) (s : state C U K) :
  let l := default set_dns_default_ips arg in
  reads_back_dns ucm →
  heap s !! l = Some ips →
  Forall (λ ip, UserConfManager.is_valid_ip ucm ip = true) ips →
  UserConfManager.update_dns ucm (VStatus mode) l (heap s) (conf s)
    = (Return tt, (h', c')) →
  ∃ s',
    _set_dns ucm (VStatus mode) arg s = (Return tt, s') ∧
    _get_dns ucm s' = (Return (OVal (VStatus mode)), s') ∧
    _get_custom_dns_list ucm s' = (Return (OList ips), s').
Proof.
  cbv zeta. intros Hlaw Hheap Hok Hup.
  pose proof (set_dns_valid ucm (VStatus mode) arg ips s eq_refl Hheap Hok) as H.
  cbv zeta in H. rewrite Hup in H. rewrite H. cbn [wrapped].
  eexists. split; [reflexivity|].
  destruct (Hlaw _ _ _ _ _ _ Hup) as (dns_configs & Hdns & Hst & Hcu).
  rewrite Hheap in Hcu. cbn [default] in Hcu.
  unfold _get_dns, _get_custom_dns_list, bind, read_conf, lift, ret.
  cbn [conf]. by rewrite Hdns, Hst, Hcu.
Qed.

Lemma set_dns_get_dns_witness :
  let ucm := Reference.user_conf_manager in
  let ips := ["9.9.9.9"; "1.1.1.1"] in
  let s := State Reference.default_config ServerTierEnum.FREE
                 (Reference.KillSwitch true VNone)
                 (<[1 := ips]> {[ set_dns_default_ips := [] ]}) [] in
  let c' := Reference.Config (VProtocol ProtocolEnum.UDP)
              (VKillswitch KillswitchStatusEnum.DISABLED)
              (VStatus UserSettingStatusEnum.CUSTOM) ips
              (VNetshield NetshieldTranslationEnum.DISABLED) in
  reads_back_dns ucm ∧
  heap s !! default set_dns_default_ips (Some 1) = Some ips ∧
  Forall (λ ip, UserConfManager.is_valid_ip ucm ip = true) ips ∧
  UserConfManager.update_dns ucm (VStatus UserSettingStatusEnum.CUSTOM) 1
    (heap s) (conf s) = (Return tt, (heap s, c')) ∧
  ∃ s',
    _set_dns ucm (VStatus UserSettingStatusEnum.CUSTOM) (Some 1) s
      = (Return tt, s') ∧
    _get_dns ucm s' = (Return (OVal (VStatus UserSettingStatusEnum.CUSTOM)), s') ∧
    _get_custom_dns_list ucm s' = (Return (OList ips), s').
Proof.
  intros ucm ips s c'.
  assert (Hlaw : reads_back_dns ucm).
  { intros status l h c h1 c1 [= <- <-]. eexists. by split_and!. }
  split; [exact Hlaw|]. split; [reflexivity|].
  split; [repeat constructor|]. split; [reflexivity|].
  apply (set_dns_get_dns ucm UserSettingStatusEnum.CUSTOM (Some 1) ips
           (heap s) c' s);
    [exact Hlaw | reflexivity | repeat constructor | reflexivity].
Defined.

(** X11.  With a store that reads back the kill switch it was given: after a
    [_set_killswitch(mode)] that the controller and the store both accepted,
    [_get_killswitch()] returns [mode]. *)
Theorem set_killswitch_get_killswitch
    {C U K : Type} (ucm : UserConfManager.t C) (ksm : KillSwitchManager.t K)
    (mode : value) (k' : K) (c' : C) (s : state C U K) :
  reads_back_killswitch ucm →
  KillSwitchManager.update_from_user_configuration_menu ksm mode (ks s)
    = (Return tt, k') →
  UserConfManager.update_killswitch ucm mode (conf s) = (Return tt, c') →
  ∃ s',
    _set_killswitch ucm ksm mode s = (Return tt, s') ∧
    ks s' = k' ∧
    _get_killswitch ucm s' = (Return mode, s').
Proof.
  intros Hlaw Hks Hup.
  unfold _set_killswitch, try_except_else, bind, emit, on_ks, on_conf.
  cbn [conf user ks heap log]. rewrite Hks. cbn [conf user ks heap log].
  rewrite Hup. eexists. split; [reflexivity|]. split; [reflexivity|].
  unfold _get_killswitch, read_conf. cbn [conf].
  by rewrite (Hlaw _ _ _ Hup).
Qed.

Lemma set_killswitch_get_killswitch_witness :
  let ucm := Reference.user_conf_manager in
  let s := Reference.initial ServerTierEnum.BASIC true in
  let mode := VKillswitch KillswitchStatusEnum.SOFT in
  reads_back_killswitch ucm ∧
  KillSwitchManager.update_from_user_configuration_menu
    Reference.ks_manager mode (ks s)
    = (Return tt, Reference.KillSwitch true mode) ∧
  UserConfManager.update_killswitch ucm mode (conf s)
    = (Return tt, (Reference.update_killswitch mode (conf s)).2) ∧
  ∃ s',
    _set_killswitch ucm Reference.ks_manager mode s = (Return tt, s') ∧
    ks s' = Reference.KillSwitch true mode ∧
    _get_killswitch ucm s' = (Return mode, s').
Proof.
  intros ucm s mode.
  assert (Hlaw : reads_back_killswitch ucm).
  { intros v c c1 [= <-]. reflexivity. }
  split; [exact Hlaw|]. split; [reflexivity|]. split; [reflexivity|].
  apply (set_killswitch_get_killswitch ucm Reference.ks_manager mode
           (Reference.KillSwitch true mode)
           (Reference.update_killswitch mode (conf s)).2 s);
    [exact Hlaw | reflexivity | reflexivity].
Defined.

(** X12.  With a store that reads back the NetShield level it was given: on a
    tier other than Free, after a [_set_netshield(v)] that the store accepted,
    [_get_netshield()] returns [v]. *)
Theorem set_netshield_get_netshield
    {C U K : Type} (ucm : UserConfManager.t C) (um : UserManager.t U)
    (v t : value) (c' : C) (s : state C U K) :
  reads_back_netshield ucm →
  UserManager.tier um (user s) = Return t →
  eq_ServerTierEnum_FREE t = false →
  UserConfManager.update_netshield ucm v (conf s) = (Return tt, c') →
  ∃ s',
    _set_netshield ucm um v s = (Return tt, s') ∧
    _get_netshield ucm s' = (Return v, s').
Proof.
  intros Hlaw Ht Hfree Hup.
  unfold _set_netshield, bind, read_user, emit, on_conf.
  assert (Hcond : (if negb (truthy v)
                   then λ s0 : state C U K,
                          match UserManager.tier um (user s0) with
                          | Return a => ret (eq_ServerTierEnum_FREE a) s0
                          | Raise e => (Raise e, s0)
                          end
                   else ret false) s = (Return false, s)).
  { destruct (truthy v); cbn [negb]; [reflexivity|].
    rewrite Ht. unfold ret. by rewrite Hfree. }
  unfold bind, read_user in *.
  match goal with
  | |- context [match ?x s with _ => _ end] =>
      replace (x s) with (@Return bool false, s)
  end.
  cbn [conf user ks heap log]. rewrite Hup.
  eexists. split; [reflexivity|].
  unfold _get_netshield, read_conf. cbn [conf]. by rewrite (Hlaw _ _ _ Hup).
Qed.

Lemma set_netshield_get_netshield_witness :
  let ucm := Reference.user_conf_manager in
  let um := Reference.user_manager in
  let s := Reference.initial ServerTierEnum.PLUS_VISIONARY true in
  let v := VNetshield NetshieldTranslationEnum.MALWARE in
  reads_back_netshield ucm ∧
  UserManager.tier um (user s) = Return (VTier ServerTierEnum.PLUS_VISIONARY) ∧
  eq_ServerTierEnum_FREE (VTier ServerTierEnum.PLUS_VISIONARY) = false ∧
  UserConfManager.update_netshield ucm v (conf s)
    = (Return tt, (Reference.update_netshield v (conf s)).2) ∧
  ∃ s',
    _set_netshield ucm um v s = (Return tt, s') ∧
    _get_netshield ucm s' = (Return v, s').
Proof.
  intros ucm um s v.
  assert (Hlaw : reads_back_netshield ucm).
  { intros w c c1 [= <-]. reflexivity. }
  split; [exact Hlaw|]. split; [reflexivity|]. split; [reflexivity|].
  split; [reflexivity|].
  apply (set_netshield_get_netshield ucm um v
           (VTier ServerTierEnum.PLUS_VISIONARY)
           (Reference.update_netshield v (conf s)).2 s);
    [exact Hlaw | reflexivity | reflexivity | reflexivity].
Defined.

(** ** The readable form: when it exists and what it holds *)

(** What makes the transformation return: every key present, a protocol
    entry whose [value] is a string, a kill switch with a text, a custom DNS
    entry that can be joined, a DNS mode and a NetShield level of their
    enumerations; and the dictionary it then returns. *)
Lemma readable_format_returns_inv
    (KILLSWITCH_STATUS_TEXT : list (value * string))
    (member_value : value → value)
    (raw_format readable : gmap DisplayUserSettingsEnum.t object) :
  transform_user_setting_to_readable_format
    KILLSWITCH_STATUS_TEXT member_value raw_format
    = Return readable →
  ∃ raw_protocol u raw_ks ks_text mode custom_dns joined level,
    raw_format !! PROTOCOL = Some raw_protocol ∧
    value_upper member_value raw_protocol = Return u ∧
    raw_format !! KILLSWITCH = Some raw_ks ∧
    getitem_object KILLSWITCH_STATUS_TEXT raw_ks = Return ks_text ∧
    raw_format !! DNS = Some (OVal (VStatus mode)) ∧
    raw_format !! CUSTOM_DNS = Some custom_dns ∧
    join_object ", " custom_dns = Return joined ∧
    raw_format !! NETSHIELD = Some (OVal (VNetshield level)) ∧
    readable =
      <[NETSHIELD := OVal (VStr
          match level with
          | NetshieldTranslationEnum.MALWARE => "Malware"
          | NetshieldTranslationEnum.ADS_MALWARE => "Ads and malware"
          | NetshieldTranslationEnum.DISABLED => "Disabled"
          end)]>
      (<[DNS := OVal (VStr
           match mode with
           | UserSettingStatusEnum.ENABLED => "Automatic"
           | UserSettingStatusEnum.CUSTOM => "Custom: " ++ joined
           end)]>
       (<[KILLSWITCH := OVal (VStr ks_text)]>
        (<[PROTOCOL := OVal (VStr
             (if contains_protocol [ProtocolEnum.TCP; ProtocolEnum.UDP]
                   raw_protocol
              then "OpenVPN (" ++ u ++ ")" else u))]> ∅))).
Proof.
  unfold transform_user_setting_to_readable_format, getitem_settings.
  destruct (raw_format !! PROTOCOL) as [raw_protocol|];
    cbn [mbind outcome_bind]; [|discriminate].
  destruct (raw_format !! KILLSWITCH) as [raw_ks|];
    cbn [mbind outcome_bind]; [|discriminate].
  destruct (raw_format !! DNS) as [raw_dns|];
    cbn [mbind outcome_bind]; [|discriminate].
  destruct (raw_format !! CUSTOM_DNS) as [raw_custom_dns|];
    cbn [mbind outcome_bind]; [|discriminate].
  destruct (raw_format !! NETSHIELD) as [raw_ns|];
    cbn [mbind outcome_bind]; [|discriminate].
  change (getitem SUPPORTED_PROTOCOLS ProtocolImplementationEnum.OPENVPN)
    with (Return [ProtocolEnum.TCP; ProtocolEnum.UDP]).
  cbn [mbind outcome_bind].
  destruct (value_upper member_value raw_protocol) as [u|e] eqn:Hu.
  2:{ by destruct (contains_protocol _ raw_protocol). }
  assert (Hprot :
    (if contains_protocol [ProtocolEnum.TCP; ProtocolEnum.UDP] raw_protocol
     then u' ← Return u; mret ("OpenVPN (" ++ u' ++ ")")
     else Return u)
    = Return (if contains_protocol [ProtocolEnum.TCP; ProtocolEnum.UDP]
                   raw_protocol
              then "OpenVPN (" ++ u ++ ")" else u))
    by by destruct (contains_protocol _ raw_protocol).
  rewrite Hprot. cbn [mbind outcome_bind].
  destruct (getitem_object KILLSWITCH_STATUS_TEXT raw_ks) as [ks_text|] eqn:Hks;
    cbn [mbind outcome_bind]; [|discriminate].
  destruct (join_object ", " raw_custom_dns) as [joined|] eqn:Hjoin;
    cbn [mbind outcome_bind]; [|discriminate].
  destruct raw_dns as [[| | | | | |mode| |]|]; try discriminate;
    try (by destruct mode).
  destruct raw_ns as [[| | | | | | |level|]|];
    try (destruct mode; discriminate).
  intros Hret.
  exists raw_protocol, u, raw_ks, ks_text, mode, raw_custom_dns, joined, level.
  split_and!; try done.
  destruct mode, level; by injection Hret as <-.
Qed.

(** X13.  The transformation returns a dictionary exactly when all five keys
    are present, the protocol entry is an enumeration member whose [value] is
    a string (every member of [ProtocolEnum] is), the kill switch has an entry
    in [KILLSWITCH_STATUS_TEXT], the custom DNS entry can be joined (a list of
    strings, or a string), the DNS mode is a member of
    [UserSettingStatusEnum] and the NetShield level one of
    [NetshieldTranslationEnum]; in every other case it raises. *)
Theorem readable_format_returns_iff
    (KILLSWITCH_STATUS_TEXT : list (value * string))
    (member_value : value → value)
    (raw_format : gmap DisplayUserSettingsEnum.t object) :
  (∃ readable,
     transform_user_setting_to_readable_format
    KILLSWITCH_STATUS_TEXT member_value raw_format
       = Return readable) ↔
  ∃ raw_protocol u raw_ks ks_text mode custom_dns joined level,
    raw_format !! PROTOCOL = Some raw_protocol ∧
    value_upper member_value raw_protocol = Return u ∧
    raw_format !! KILLSWITCH = Some raw_ks ∧
    getitem_object KILLSWITCH_STATUS_TEXT raw_ks = Return ks_text ∧
    raw_format !! DNS = Some (OVal (VStatus mode)) ∧
    raw_format !! CUSTOM_DNS = Some custom_dns ∧
    join_object ", " custom_dns = Return joined ∧
    raw_format !! NETSHIELD = Some (OVal (VNetshield level)).
Proof.
  split.
  - intros [readable Hr].
    destruct (readable_format_returns_inv _ _ _ _ Hr)
      as (rp & u & raw_ks & ks_text & mode & cu & joined & level & H).
    exists rp, u, raw_ks, ks_text, mode, cu, joined, level.
    by destruct H as (? & ? & ? & ? & ? & ? & ? & ? & _).
  - intros (rp & u & raw_ks & ks_text & mode & cu & joined & level &
            Hp & Hu & Hk & Ht & Hd & Hc & Hj & Hn).
    unfold transform_user_setting_to_readable_format, getitem_settings.
    rewrite Hp, Hk, Hd, Hc, Hn. cbn [mbind outcome_bind].
    change (getitem SUPPORTED_PROTOCOLS ProtocolImplementationEnum.OPENVPN)
      with (Return [ProtocolEnum.TCP; ProtocolEnum.UDP]).
    cbn [mbind outcome_bind]. rewrite Hu, Ht, Hj.
    destruct (contains_protocol _ rp), mode, level; eexists; reflexivity.
Qed.

(** The protocol entry need not be a protocol: with enumerations whose values
    are strings, a NetShield member under the protocol key is upper-cased like
    any other value; with integer values the transformation raises
    [AttributeError]. *)
Example readable_format_other_member_as_protocol :
  let raw_format : gmap DisplayUserSettingsEnum.t object :=
    <[NETSHIELD := OVal (VNetshield NetshieldTranslationEnum.DISABLED)]>
    (<[CUSTOM_DNS := OList []]>
     (<[DNS := OVal (VStatus UserSettingStatusEnum.ENABLED)]>
      (<[KILLSWITCH := OVal (VKillswitch KillswitchStatusEnum.SOFT)]>
       (<[PROTOCOL := OVal (VNetshield NetshieldTranslationEnum.MALWARE)]> ∅)))) in
  (∃ readable,
     transform_user_setting_to_readable_format Reference.KILLSWITCH_STATUS_TEXT
       (λ _, VStr "f1") raw_format = Return readable ∧
     readable !! PROTOCOL = Some (OVal (VStr "F1"))) ∧
  transform_user_setting_to_readable_format Reference.KILLSWITCH_STATUS_TEXT
    Reference.member_value raw_format = Raise AttributeError.
Proof. split; [eexists; split; reflexivity | reflexivity]. Qed.

(** X14.  The string for the Custom mode is built before the mode is looked
    up, so the custom DNS entry is joined in every mode: when that entry is
    an object that cannot be joined ([None], a number, an enumeration member),
    the transformation raises [TypeError] even if the mode is Automatic and
    every other entry is well formed. *)
Theorem readable_format_joins_in_every_mode
    (KILLSWITCH_STATUS_TEXT : list (value * string))
    (member_value : value → value)
    (raw_format : gmap DisplayUserSettingsEnum.t object)
    (p : ProtocolEnum.t) (raw_ks raw_dns raw_ns : object) (ks_text : string)
    (v : value) :
  raw_format !! PROTOCOL = Some (OVal (VProtocol p)) →
  raw_format !! KILLSWITCH = Some raw_ks →
  getitem_object KILLSWITCH_STATUS_TEXT raw_ks = Return ks_text →
  raw_format !! DNS = Some raw_dns →
  raw_format !! CUSTOM_DNS = Some (OVal v) →
  (∀ text, v ≠ VStr text) →
  raw_format !! NETSHIELD = Some raw_ns →
  transform_user_setting_to_readable_format
    KILLSWITCH_STATUS_TEXT member_value raw_format
    = Raise TypeError.
Proof.
  intros Hp Hk Ht Hd Hc Hv Hn.
  unfold transform_user_setting_to_readable_format, getitem_settings.
  rewrite Hp, Hk, Hd, Hc, Hn. cbn [mbind outcome_bind].
  change (getitem SUPPORTED_PROTOCOLS ProtocolImplementationEnum.OPENVPN)
    with (Return [ProtocolEnum.TCP; ProtocolEnum.UDP]).
  cbn [mbind outcome_bind contains_protocol value_upper].
  rewrite Ht.
  assert (Hj : join_object ", " (OVal v) = Raise TypeError).
  { destruct v; try reflexivity. by destruct (Hv s). }
  rewrite Hj. by destruct p.
Qed.

Lemma readable_format_joins_in_every_mode_witness :
  let raw_format : gmap DisplayUserSettingsEnum.t object :=
    <[NETSHIELD := OVal (VNetshield NetshieldTranslationEnum.DISABLED)]>
    (<[CUSTOM_DNS := OVal VNone]>
     (<[DNS := OVal (VStatus UserSettingStatusEnum.ENABLED)]>
      (<[KILLSWITCH := OVal (VKillswitch KillswitchStatusEnum.SOFT)]>
       (<[PROTOCOL := OVal (VProtocol ProtocolEnum.TCP)]> ∅)))) in
  raw_format !! DNS = Some (OVal (VStatus UserSettingStatusEnum.ENABLED)) ∧
  raw_format !! CUSTOM_DNS = Some (OVal VNone) ∧
  (∀ text, VNone ≠ VStr text) ∧
  transform_user_setting_to_readable_format
    Reference.KILLSWITCH_STATUS_TEXT Reference.member_value raw_format = Raise TypeError.
Proof.
  intros raw_format. split; [reflexivity|]. split; [reflexivity|].
  split; [discriminate|].
  apply (readable_format_joins_in_every_mode
      Reference.KILLSWITCH_STATUS_TEXT Reference.member_value
           raw_format ProtocolEnum.TCP
           (OVal (VKillswitch KillswitchStatusEnum.SOFT))
           (OVal (VStatus UserSettingStatusEnum.ENABLED))
           (OVal (VNetshield NetshieldTranslationEnum.DISABLED)) "On" VNone);
    try reflexivity.
  discriminate.
Defined.

(** X15.  A dictionary that lacks any one of the five keys makes the
    transformation raise [KeyError], whatever the other entries are (the
    custom DNS key included, also in Automatic mode). *)
Theorem readable_format_missing_key
    (KILLSWITCH_STATUS_TEXT : list (value * string))
    (member_value : value → value)
    (raw_format : gmap DisplayUserSettingsEnum.t object)
    (k : DisplayUserSettingsEnum.t) :
  raw_format !! k = None →
  transform_user_setting_to_readable_format
    KILLSWITCH_STATUS_TEXT member_value raw_format
    = Raise KeyError.
Proof.
  intros Hk.
  unfold transform_user_setting_to_readable_format, getitem_settings.
  destruct (raw_format !! PROTOCOL) eqn:H1; [|reflexivity].
  destruct (raw_format !! KILLSWITCH) eqn:H2; [|reflexivity].
  destruct (raw_format !! DNS) eqn:H3; [|reflexivity].
  destruct (raw_format !! CUSTOM_DNS) eqn:H4; [|reflexivity].
  destruct (raw_format !! NETSHIELD) eqn:H5; [|reflexivity].
  destruct k; congruence.
Qed.

Lemma readable_format_missing_key_witness :
  let raw_format : gmap DisplayUserSettingsEnum.t object :=
    <[NETSHIELD := OVal (VNetshield NetshieldTranslationEnum.DISABLED)]>
    (<[DNS := OVal (VStatus UserSettingStatusEnum.ENABLED)]>
     (<[KILLSWITCH := OVal (VKillswitch KillswitchStatusEnum.SOFT)]>
      (<[PROTOCOL := OVal (VProtocol ProtocolEnum.TCP)]> ∅))) in
  raw_format !! CUSTOM_DNS = None ∧
  transform_user_setting_to_readable_format
    Reference.KILLSWITCH_STATUS_TEXT Reference.member_value raw_format = Raise KeyError.
Proof.
  intros raw_format. split; [reflexivity|].
  exact (readable_format_missing_key
      Reference.KILLSWITCH_STATUS_TEXT Reference.member_value
           raw_format CUSTOM_DNS eq_refl).
Defined.

(** X16.  Every value of a dictionary the transformation returns is a
    string. *)
Theorem readable_format_values_are_strings
    (KILLSWITCH_STATUS_TEXT : list (value * string))
    (member_value : value → value)
    (raw_format readable : gmap DisplayUserSettingsEnum.t object)
    (k : DisplayUserSettingsEnum.t) (o : object) :
  transform_user_setting_to_readable_format
    KILLSWITCH_STATUS_TEXT member_value raw_format
    = Return readable →
  readable !! k = Some o →
  ∃ text, o = OVal (VStr text).
Proof.
  intros Hr Hk.
  destruct (readable_format_returns_inv _ _ _ _ Hr)
    as (rp & u & raw_ks & ks_text & mode & cu & joined & level & H).
  destruct H as (_ & _ & _ & _ & _ & _ & _ & _ & ->).
  destruct k; simplify_map_eq; by eexists.
Qed.

Lemma readable_format_values_are_strings_witness :
  let raw_format : gmap DisplayUserSettingsEnum.t object :=
    <[NETSHIELD := OVal (VNetshield NetshieldTranslationEnum.MALWARE)]>
    (<[CUSTOM_DNS := OList ["9.9.9.9"]]>
     (<[DNS := OVal (VStatus UserSettingStatusEnum.CUSTOM)]>
      (<[KILLSWITCH := OVal (VKillswitch KillswitchStatusEnum.HARD)]>
       (<[PROTOCOL := OVal (VProtocol ProtocolEnum.WIREGUARD)]> ∅)))) in
  let readable : gmap DisplayUserSettingsEnum.t object :=
    <[NETSHIELD := OVal (VStr "Malware")]>
    (<[DNS := OVal (VStr "Custom: 9.9.9.9")]>
     (<[KILLSWITCH := OVal (VStr "Always-on")]>
      (<[PROTOCOL := OVal (VStr "WIREGUARD")]> ∅))) in
  transform_user_setting_to_readable_format
    Reference.KILLSWITCH_STATUS_TEXT Reference.member_value raw_format = Return readable ∧
  readable !! KILLSWITCH = Some (OVal (VStr "Always-on")) ∧
  ∃ text, OVal (VStr "Always-on") = OVal (VStr text).
Proof.
  intros raw_format readable. split; [reflexivity|]. split; [reflexivity|].
  exact (readable_format_values_are_strings
      Reference.KILLSWITCH_STATUS_TEXT Reference.member_value
           raw_format readable KILLSWITCH (OVal (VStr "Always-on"))
           eq_refl eq_refl).
Defined.

(** ** The settings dictionary and the getters *)

(** X17.  The raw dictionary holds, under each key, what the getter of that
    setting returns in the same state: whenever [_get_user_settings(False)]
    returns, the five getters return too and the dictionary is made of their
    results. *)
Theorem get_user_settings_raw_agrees_with_getters
    {C U K : Type} (ucm : UserConfManager.t C)
    (KILLSWITCH_STATUS_TEXT : list (value * string))
    (member_value : value → value)
    (s s' : state C U K) (raw : gmap DisplayUserSettingsEnum.t object) :
  _get_user_settings ucm KILLSWITCH_STATUS_TEXT member_value false s = (Return raw, s') →
  ∃ protocol killswitch dns custom_dns netshield,
    _get_protocol ucm s = (Return protocol, s) ∧
    _get_killswitch ucm s = (Return killswitch, s) ∧
    _get_dns ucm s = (Return dns, s) ∧
    _get_custom_dns_list ucm s = (Return custom_dns, s) ∧
    _get_netshield ucm s = (Return netshield, s) ∧
    raw !! PROTOCOL = Some (OVal protocol) ∧
    raw !! KILLSWITCH = Some (OVal killswitch) ∧
    raw !! DNS = Some dns ∧
    raw !! CUSTOM_DNS = Some custom_dns ∧
    raw !! NETSHIELD = Some (OVal netshield).
Proof.
  rewrite get_user_settings_run. cbn [mbind outcome_bind negb].
  unfold _get_protocol, _get_killswitch, _get_dns, _get_custom_dns_list,
    _get_netshield, bind, read_conf, lift, ret. cbn [conf].
  destruct (getitem (UserConfManager.get_user_configurations ucm (conf s))
              UserSettingConnectionEnum.DNS) as [d|e];
    cbn [mbind outcome_bind]; [|discriminate].
  destruct (getitem d UserSettingConnectionEnum.DNS_STATUS) as [st|e];
    cbn [mbind outcome_bind]; [|discriminate].
  destruct (getitem d UserSettingConnectionEnum.CUSTOM_DNS) as [cu|e];
    cbn [mbind outcome_bind]; [|discriminate].
  intros [= <- <-]. unfold settings_dict_of.
  eexists _, _, _, _, _. split_and!; try reflexivity; by simplify_map_eq.
Qed.

Lemma get_user_settings_raw_agrees_with_getters_witness :
  let ucm := Reference.user_conf_manager in
  let s := Reference.initial ServerTierEnum.FREE true in
  let raw : gmap DisplayUserSettingsEnum.t object :=
    <[NETSHIELD := OVal (VNetshield NetshieldTranslationEnum.DISABLED)]>
    (<[CUSTOM_DNS := OList []]>
     (<[DNS := OVal (VStatus UserSettingStatusEnum.ENABLED)]>
      (<[KILLSWITCH := OVal (VKillswitch KillswitchStatusEnum.DISABLED)]>
       (<[PROTOCOL := OVal (VProtocol ProtocolEnum.UDP)]> ∅)))) in
  _get_user_settings ucm Reference.KILLSWITCH_STATUS_TEXT Reference.member_value false s
    = (Return raw, s) ∧
  ∃ protocol killswitch dns custom_dns netshield,
    _get_protocol ucm s = (Return protocol, s) ∧
    _get_killswitch ucm s = (Return killswitch, s) ∧
    _get_dns ucm s = (Return dns, s) ∧
    _get_custom_dns_list ucm s = (Return custom_dns, s) ∧
    _get_netshield ucm s = (Return netshield, s) ∧
    raw !! PROTOCOL = Some (OVal protocol) ∧
    raw !! KILLSWITCH = Some (OVal killswitch) ∧
    raw !! DNS = Some dns ∧
    raw !! CUSTOM_DNS = Some custom_dns ∧
    raw !! NETSHIELD = Some (OVal netshield).
Proof.
  intros ucm s raw. split; [reflexivity|].
  exact (get_user_settings_raw_agrees_with_getters ucm
           Reference.KILLSWITCH_STATUS_TEXT Reference.member_value s s raw eq_refl).
Defined.

(** X18.  When the configurations of the store have no DNS entry, or that
    entry lacks the status or the custom list, [_get_user_settings] raises
    [KeyError] in both forms, and so does the getter that reads the missing
    entry; no state changes. *)
Theorem get_user_settings_missing_dns_configuration
    {C U K : Type} (ucm : UserConfManager.t C)
    (KILLSWITCH_STATUS_TEXT : list (value * string))
    (member_value : value → value)
    (readeable_format : bool) (s : state C U K) :
  (_get_dns ucm s).1 = Raise KeyError ∨
  (_get_custom_dns_list ucm s).1 = Raise KeyError →
  _get_user_settings ucm KILLSWITCH_STATUS_TEXT member_value readeable_format s
    = (Raise KeyError, s).
Proof.
  assert (Hkey : ∀ {A B} `{EqDecision A} (d : list (A * B)) k e,
            getitem d k = Raise e → e = KeyError).
  { intros A B ? d k e. unfold getitem. destruct (assoc d k); congruence. }
  rewrite get_user_settings_run. cbn [mbind outcome_bind].
  unfold _get_dns, _get_custom_dns_list, bind, read_conf, lift, ret.
  cbn [conf].
  destruct (getitem (UserConfManager.get_user_configurations ucm (conf s))
              UserSettingConnectionEnum.DNS) as [d|e] eqn:Hd;
    cbn [mbind outcome_bind fst].
  - destruct (getitem d UserSettingConnectionEnum.DNS_STATUS) as [st|e] eqn:Hst;
      cbn [mbind outcome_bind fst].
    + destruct (getitem d UserSettingConnectionEnum.CUSTOM_DNS) as [cu|e] eqn:Hcu;
        cbn [mbind outcome_bind fst].
      * intros [?|?]; discriminate.
      * intros _. by rewrite (Hkey _ _ _ _ _ _ Hcu).
    + intros _. by rewrite (Hkey _ _ _ _ _ _ Hst).
  - intros _. by rewrite (Hkey _ _ _ _ _ _ Hd).
Qed.

Lemma get_user_settings_missing_dns_configuration_witness :
  let s := Reference.initial ServerTierEnum.FREE true in
  ((_get_dns Faulty.unconfigured s).1 = Raise KeyError ∨
   (_get_custom_dns_list Faulty.unconfigured s).1 = Raise KeyError) ∧
  _get_user_settings Faulty.unconfigured
      Reference.KILLSWITCH_STATUS_TEXT Reference.member_value false s
    = (Raise KeyError, s) ∧
  _get_user_settings Faulty.unconfigured
      Reference.KILLSWITCH_STATUS_TEXT Reference.member_value true s
    = (Raise KeyError, s).
Proof.
  intros s.
  assert (H : (_get_dns Faulty.unconfigured s).1 = Raise KeyError ∨
              (_get_custom_dns_list Faulty.unconfigured s).1 = Raise KeyError)
    by (left; reflexivity).
  split; [exact H|]. split.
  - exact (get_user_settings_missing_dns_configuration Faulty.unconfigured
             Reference.KILLSWITCH_STATUS_TEXT Reference.member_value false s H).
  - exact (get_user_settings_missing_dns_configuration Faulty.unconfigured
             Reference.KILLSWITCH_STATUS_TEXT Reference.member_value true s H).
Defined.

(** X19.  The readable form is the transformation of the raw form: whenever
    [_get_user_settings(False)] returns [raw], [_get_user_settings(True)] in
    the same state has the outcome of the transformation applied to [raw],
    and neither call changes the state. *)
Theorem get_user_settings_readable_is_transformed_raw
    {C U K : Type} (ucm : UserConfManager.t C)
    (KILLSWITCH_STATUS_TEXT : list (value * string))
    (member_value : value → value)
    (s s' : state C U K) (raw : gmap DisplayUserSettingsEnum.t object) :
  _get_user_settings ucm KILLSWITCH_STATUS_TEXT member_value false s = (Return raw, s') →
  s' = s ∧
  _get_user_settings ucm KILLSWITCH_STATUS_TEXT member_value true s =
    (transform_user_setting_to_readable_format
       KILLSWITCH_STATUS_TEXT member_value raw, s).
Proof.
  rewrite !get_user_settings_run. cbn [mbind outcome_bind negb].
  destruct (getitem (UserConfManager.get_user_configurations ucm (conf s))
              UserSettingConnectionEnum.DNS) as [d|e];
    cbn [mbind outcome_bind]; [|discriminate].
  destruct (getitem d UserSettingConnectionEnum.DNS_STATUS) as [st|e];
    cbn [mbind outcome_bind]; [|discriminate].
  destruct (getitem d UserSettingConnectionEnum.CUSTOM_DNS) as [cu|e];
    cbn [mbind outcome_bind]; [|discriminate].
  by intros [= <- <-].
Qed.

Lemma get_user_settings_readable_is_transformed_raw_witness :
  let ucm := Reference.user_conf_manager in
  let s := Reference.initial ServerTierEnum.FREE true in
  let raw : gmap DisplayUserSettingsEnum.t object :=
    <[NETSHIELD := OVal (VNetshield NetshieldTranslationEnum.DISABLED)]>
    (<[CUSTOM_DNS := OList []]>
     (<[DNS := OVal (VStatus UserSettingStatusEnum.ENABLED)]>
      (<[KILLSWITCH := OVal (VKillswitch KillswitchStatusEnum.DISABLED)]>
       (<[PROTOCOL := OVal (VProtocol ProtocolEnum.UDP)]> ∅)))) in
  _get_user_settings ucm Reference.KILLSWITCH_STATUS_TEXT Reference.member_value false s
    = (Return raw, s) ∧
  _get_user_settings ucm Reference.KILLSWITCH_STATUS_TEXT Reference.member_value true s =
    (transform_user_setting_to_readable_format
       Reference.KILLSWITCH_STATUS_TEXT Reference.member_value raw, s).
Proof.
  intros ucm s raw. split; [reflexivity|].
  exact (proj2 (get_user_settings_readable_is_transformed_raw ucm
                  Reference.KILLSWITCH_STATUS_TEXT Reference.member_value
                  s s raw eq_refl)).
Defined.

(** ** Reset and tier *)

(** X20.  [_reset_to_default_configs] calls [reset_default_configs] of the
    store once and does nothing else: the kill switch controller, the tier
    provider and the list objects are left as they are.  An [Exception] of the
    store comes out wrapped in a new [Exception]; an exception outside that
    class passes through. *)
Theorem reset_to_default_configs_run
    {C U K : Type} (ucm : UserConfManager.t C) (s : state C U K) :
  let '(o, c) := UserConfManager.reset_default_configs ucm (conf s) in
  _reset_to_default_configs ucm s =
    (wrapped o,
     State c (user s) (ks s) (heap s) (log s ++ [ResetDefaultConfigs])).
Proof.
  destruct (UserConfManager.reset_default_configs ucm (conf s)) as [o c] eqn:H.
  unfold _reset_to_default_configs, try_except_else, bind, emit, on_conf.
  cbn [conf user ks heap log]. rewrite H.
  destruct o as [[]|e]; [reflexivity|].
  cbn [wrapped]. by destruct (is_Exception e).
Qed.

(** X21.  [_get_user_tier] changes no state.  It returns the conversion of
    what the tier provider answers; an [Exception] raised by the provider or
    by the conversion comes out wrapped in a new [Exception], and an exception
    outside that class passes through. *)
Theorem get_user_tier_run
    {C U K : Type} (um : UserManager.t U) (UserTierEnum : value → outcome value)
    (s : state C U K) :
  _get_user_tier um UserTierEnum s =
    (wrapped_outcome (UserManager.tier um (user s) ≫= UserTierEnum), s).
Proof.
  unfold _get_user_tier, try_except_else, bind, read_user, lift.
  destruct (UserManager.tier um (user s)) as [t|e];
    cbn [mbind outcome_bind wrapped_outcome].
  - destruct (UserTierEnum t) as [x|e]; [reflexivity|].
    cbn [wrapped_outcome]. by destruct (is_Exception e).
  - by destruct (is_Exception e).
Qed.
